(** * A shallow embedding of the [logger] package (a thin wrapper around logrus)

    The package configures a logrus engine from a [Config] ([New],
    [setupFormatter], [setupOutput]) and wraps it in a [Logger] handle
    that stamps every entry with a service name and the call site
    ([withFields]).

    Go pointers are addresses into typed heaps kept in a [World]; code
    that can panic or leave the process runs in the monad [M]. *)

From Stdlib Require Import Ascii.
From stdpp Require Import base option list strings gmap pretty.

(** ** Go values that cross the package boundary *)

(** Go's [error] values, as this package builds them. *)
Inductive error : Type :=
| errorString (s : string)                  (* fmt.Errorf without %w *)
| wrapError (prefix : string) (err : error) (* fmt.Errorf("prefix%w", err) *)
| PathError (op path : string) (errno : N). (* what os.OpenFile returns *)

(** errors.Unwrap, iterated down to the innermost error. *)
Fixpoint root_cause (e : error) : error :=
  match e with
  | wrapError _ err => root_cause err
  | _ => e
  end.

(** Values stored in a field map ([interface{}] in the source). *)
Inductive value : Type :=
| VString (s : string)
| VInt (z : Z)
| VBool (b : bool)
| VError (e : error).

(** A pointer: [nil] or an address in the heap of its type. *)
Inductive ptr : Type :=
| nil_ptr
| addr (a : nat).

#[global] Instance ptr_eq_dec : EqDecision ptr.
Proof. solve_decision. Defined.

(** One frame of the goroutine's call stack, as the runtime reports it:
    the program counter stands for the frame itself, [frame_func] is what
    [runtime.FuncForPC(pc)] finds for it ([None] for Go's nil). *)
Record Frame : Type := mkFrame {
  frame_func : option string;
  frame_file : string;
  frame_line : Z
}.

(** ** The logging engine (logrus), restricted to what the package calls *)

Module io.
#[warnings="-register-all"]
Inductive Writer : Type :=
| Stdout
| Stderr
| File (fd : nat)
| MultiWriter (writers : list Writer).

(** The streams a writer finally writes to. *)
Fixpoint targets (w : Writer) : list Writer :=
  match w with
  | MultiWriter ws => concat (map targets ws)
  | _ => [w]
  end.
End io.

Module logrus.
(** [logrus.Level] is a [uint32]; no arithmetic is done on it. *)
Definition Level : Type := N.
Definition PanicLevel : Level := 0%N.
Definition FatalLevel : Level := 1%N.
Definition ErrorLevel : Level := 2%N.
Definition WarnLevel : Level := 3%N.
Definition InfoLevel : Level := 4%N.
Definition DebugLevel : Level := 5%N.
Definition TraceLevel : Level := 6%N.

Inductive Formatter : Type :=
| TextFormatter (FullTimestamp : bool)
| JSONFormatter.

(** The fields of [logrus.Logger] the package sets: [Out], [Formatter]
    and [Level]. *)
Record Logger : Type := mkLogger {
  Out : io.Writer;
  Fmt : Formatter;
  Lvl : Level
}.

Definition Fields : Type := gmap string value.

(** [*logrus.Entry]: the engine it belongs to and its field map. *)
Record Entry : Type := mkEntry {
  entry_Logger : ptr;
  Data : gmap string value
}.

(** The message of a log call, before the engine renders it. *)
Inductive Message : Type :=
| Sprint (args : list value)
| Sprintf (format : string) (args : list value).

(** What an engine hands to its formatter and writer for one entry. *)
Record Line : Type := mkLine {
  line_level : Level;
  line_msg : Message;
  line_data : gmap string value;
  line_fmt : Formatter;
  line_out : io.Writer
}.
End logrus.

(** ** The package's own types *)

Definition OutputType : Type := string.

Definition ConsoleOutput : OutputType := "console".
Definition FileOutput : OutputType := "file".
Definition BothOutput : OutputType := "both".

Definition PanicLevel := logrus.PanicLevel.
Definition FatalLevel := logrus.FatalLevel.
Definition ErrorLevel := logrus.ErrorLevel.
Definition WarnLevel := logrus.WarnLevel.
Definition InfoLevel := logrus.InfoLevel.
Definition DebugLevel := logrus.DebugLevel.
Definition TraceLevel := logrus.TraceLevel.

(** [Config]. Its field [Level] has the type the source calls [Level],
    an alias of [logrus.Level]; the alias is written [logrus.Level] here, the
    name being taken by the field. *)
Record Config : Type := mkConfig {
  Level : logrus.Level;
  Output : OutputType;
  FilePath : string;
  Format : string
}.

Record Logger : Type := mkLogger {
  logger : ptr;           (* *logrus.Logger *)
  serviceName : string
}.

(** ** The world: heaps, open files, written lines *)

Record OpenedFile : Type := mkOpenedFile {
  of_name : string;
  of_flag : Z;
  of_perm : Z
}.

Record World : Type := mkWorld {
  engines : list logrus.Logger;   (* heap of *logrus.Logger *)
  handles : list Logger;          (* heap of *Logger *)
  files : list OpenedFile;        (* descriptors handed out by os.OpenFile *)
  written : list logrus.Line;     (* lines written by the engines, oldest first *)
  open_errno : string -> option N (* the file system: why a path cannot be opened *)
}.

Inductive PanicValue : Type :=
| RuntimeError (msg : string)
| EntryPanic (e : logrus.Entry).

Inductive Outcome (A : Type) : Type :=
| Returned (a : A) (w : World)
| Panicked (v : PanicValue) (w : World)
| Exited (code : Z) (w : World).

Arguments Returned {A} a w.
Arguments Panicked {A} v w.
Arguments Exited {A} code w.

Definition M (A : Type) : Type := World -> Outcome A.

#[global] Instance M_ret : MRet M := fun A a w => Returned a w.

#[global] Instance M_bind : MBind M := fun A B f m w =>
  match m w with
  | Returned a w' => f a w'
  | Panicked v w' => Panicked v w'
  | Exited c w' => Exited c w'
  end.

Definition panic {A : Type} (v : PanicValue) : M A := fun w => Panicked v w.

Definition nil_dereference : PanicValue :=
  RuntimeError "invalid memory address or nil pointer dereference".

Definition world_of {A : Type} (o : Outcome A) : World :=
  match o with
  | Returned _ w | Panicked _ w | Exited _ w => w
  end.

Inductive OutcomeKind : Type := KReturned | KPanicked | KExited.

Definition kind_of {A : Type} (o : Outcome A) : OutcomeKind :=
  match o with
  | Returned _ _ => KReturned
  | Panicked _ _ => KPanicked
  | Exited _ _ => KExited
  end.

Definition set_engines (f : list logrus.Logger -> list logrus.Logger) (w : World) : World :=
  mkWorld (f (engines w)) (handles w) (files w) (written w) (open_errno w).

Definition set_handles (f : list Logger -> list Logger) (w : World) : World :=
  mkWorld (engines w) (f (handles w)) (files w) (written w) (open_errno w).

Definition set_files (f : list OpenedFile -> list OpenedFile) (w : World) : World :=
  mkWorld (engines w) (handles w) (f (files w)) (written w) (open_errno w).

Definition set_written (f : list logrus.Line -> list logrus.Line) (w : World) : World :=
  mkWorld (engines w) (handles w) (files w) (f (written w)) (open_errno w).

(** Reading through a pointer: nil (or an address outside the heap)
    panics. *)
Definition deref {A : Type} (heap : World -> list A) (p : ptr) : M A := fun w =>
  match p with
  | nil_ptr => Panicked nil_dereference w
  | addr a =>
      match heap w !! a with
      | Some x => Returned x w
      | None => Panicked nil_dereference w
      end
  end.

Definition load_engine : ptr -> M logrus.Logger := deref engines.
Definition load_Logger : ptr -> M Logger := deref handles.

(** Writing through a pointer, with the same check written out (an
    update outside the heap would otherwise do nothing). *)
Definition store_engine (p : ptr) (e : logrus.Logger) : M unit := fun w =>
  match p with
  | nil_ptr => Panicked nil_dereference w
  | addr a =>
      match engines w !! a with
      | Some _ => Returned tt (set_engines (fun h => <[a := e]> h) w)
      | None => Panicked nil_dereference w
      end
  end.

(** [&logrus.Logger{...}] and [&Logger{...}]: a fresh address. *)
Definition alloc_engine (e : logrus.Logger) : M ptr := fun w =>
  Returned (addr (length (engines w))) (set_engines (fun h => h ++ [e]) w).

Definition alloc_Logger (l : Logger) : M ptr := fun w =>
  Returned (addr (length (handles w))) (set_handles (fun h => h ++ [l]) w).

Definition exit {A : Type} (code : Z) : M A := fun w => Exited code w.

(** ** Library calls the package makes *)

Definition O_WRONLY : Z := 0x1.
Definition O_CREATE : Z := 0x40.
Definition O_APPEND : Z := 0x400.

(** [os.OpenFile]: a [*os.File] (its descriptor) with a nil error, or a
    nil file with a [*PathError]. *)
Definition os_OpenFile (name : string) (flag perm : Z) : M (nat + error) :=
  fun w =>
    match open_errno w name with
    | Some errno => Returned (inr (PathError "open" name errno)) w
    | None =>
        Returned (inl (length (files w)))
                 (set_files (fun fs => fs ++ [mkOpenedFile name flag perm]) w)
    end.

Definition IsPathSeparator (c : Ascii.ascii) : bool := Ascii.eqb c "/"%char.

Fixpoint drop_while {A : Type} (p : A -> bool) (l : list A) : list A :=
  match l with
  | [] => []
  | x :: l' => if p x then drop_while p l' else l
  end.

Fixpoint take_while {A : Type} (p : A -> bool) (l : list A) : list A :=
  match l with
  | [] => []
  | x :: l' => if p x then x :: take_while p l' else []
  end.

(** [filepath.Base] on Unix: the last element of the path, trailing
    separators removed; "." for the empty path and "/" for a path of
    separators only. *)
Definition filepath_Base (path : string) : string :=
  if decide (path = "") then "."
  else
    let stripped := drop_while IsPathSeparator (reverse (String.list_ascii_of_string path)) in
    let last := reverse (take_while (fun c => negb (IsPathSeparator c)) stripped) in
    if decide (last = []) then "/" else String.string_of_list_ascii last.

(** [runtime.Caller(skip)]: the frame [skip] levels above the function
    that calls it; [stack] starts with that function's own frame. *)
Definition runtime_Caller (skip : nat) (stack : list Frame) : option Frame :=
  stack !! skip.

Definition runtime_FuncForPC (pc : Frame) : option string := frame_func pc.

(** The frame of one of this package's functions while it calls out.
    Only frames above these two are ever read. *)
Definition own_frame (fn : string) : Frame :=
  mkFrame (Some ("logger.Logger." +:+ fn)) "logger.go" 0.

(** ** The engine's operations *)

(** [logrus.New()]: standard error, the text formatter with its zero
    options, level info. *)
Definition logrus_New : M ptr :=
  alloc_engine (logrus.mkLogger io.Stderr (logrus.TextFormatter false) logrus.InfoLevel).

Definition logrus_SetLevel (lg : ptr) (level : logrus.Level) : M unit :=
  e ← load_engine lg;
  store_engine lg (logrus.mkLogger (logrus.Out e) (logrus.Fmt e) level).

Definition logrus_GetLevel (lg : ptr) : M logrus.Level :=
  e ← load_engine lg;
  mret (logrus.Lvl e).

Definition logrus_SetFormatter (lg : ptr) (formatter : logrus.Formatter) : M unit :=
  e ← load_engine lg;
  store_engine lg (logrus.mkLogger (logrus.Out e) formatter (logrus.Lvl e)).

Definition logrus_SetOutput (lg : ptr) (output : io.Writer) : M unit :=
  e ← load_engine lg;
  store_engine lg (logrus.mkLogger output (logrus.Fmt e) (logrus.Lvl e)).

(** [WithFields] of [*logrus.Logger]: a new entry of that engine. *)
Definition logrus_WithFields (lg : ptr) (fields : gmap string value) : M logrus.Entry :=
  _ ← load_engine lg;
  mret (logrus.mkEntry lg fields).

(** [WithFields] of [*logrus.Entry]: the entry's fields, overridden by
    the new ones. *)
Definition Entry_WithFields (e : logrus.Entry) (fields : gmap string value) : logrus.Entry :=
  logrus.mkEntry (logrus.entry_Logger e) (fields ∪ logrus.Data e).

Definition Entry_WithField (e : logrus.Entry) (key : string) (v : value) : logrus.Entry :=
  Entry_WithFields e {[ key := v ]}.

Definition Entry_WithError (e : logrus.Entry) (err : error) : logrus.Entry :=
  Entry_WithField e "error" (VError err).

Definition write_line (ln : logrus.Line) : M unit := fun w =>
  Returned tt (set_written (fun ls => ls ++ [ln]) w).

(** [Log] of [*logrus.Entry]: nothing below the engine's level; one line
    otherwise, and a panic carrying the entry at panic level. *)
Definition Entry_Log (e : logrus.Entry) (level : logrus.Level) (msg : logrus.Message) : M unit :=
  lg ← load_engine (logrus.entry_Logger e);
  if (level <=? logrus.Lvl lg)%N then
    _ ← write_line (logrus.mkLine level msg (logrus.Data e) (logrus.Fmt lg) (logrus.Out lg));
    if (level <=? logrus.PanicLevel)%N then panic (EntryPanic e) else mret tt
  else mret tt.

Definition Entry_Debug (e : logrus.Entry) (args : list value) : M unit :=
  Entry_Log e logrus.DebugLevel (logrus.Sprint args).
Definition Entry_Debugf (e : logrus.Entry) (format : string) (args : list value) : M unit :=
  Entry_Log e logrus.DebugLevel (logrus.Sprintf format args).
Definition Entry_Info (e : logrus.Entry) (args : list value) : M unit :=
  Entry_Log e logrus.InfoLevel (logrus.Sprint args).
Definition Entry_Infof (e : logrus.Entry) (format : string) (args : list value) : M unit :=
  Entry_Log e logrus.InfoLevel (logrus.Sprintf format args).
Definition Entry_Warn (e : logrus.Entry) (args : list value) : M unit :=
  Entry_Log e logrus.WarnLevel (logrus.Sprint args).
Definition Entry_Warnf (e : logrus.Entry) (format : string) (args : list value) : M unit :=
  Entry_Log e logrus.WarnLevel (logrus.Sprintf format args).
Definition Entry_Error (e : logrus.Entry) (args : list value) : M unit :=
  Entry_Log e logrus.ErrorLevel (logrus.Sprint args).
Definition Entry_Errorf (e : logrus.Entry) (format : string) (args : list value) : M unit :=
  Entry_Log e logrus.ErrorLevel (logrus.Sprintf format args).
Definition Entry_Fatal (e : logrus.Entry) (args : list value) : M unit :=
  _ ← Entry_Log e logrus.FatalLevel (logrus.Sprint args);
  exit 1.
Definition Entry_Fatalf (e : logrus.Entry) (format : string) (args : list value) : M unit :=
  _ ← Entry_Log e logrus.FatalLevel (logrus.Sprintf format args);
  exit 1.
Definition Entry_Panic (e : logrus.Entry) (args : list value) : M unit :=
  Entry_Log e logrus.PanicLevel (logrus.Sprint args).
Definition Entry_Panicf (e : logrus.Entry) (format : string) (args : list value) : M unit :=
  Entry_Log e logrus.PanicLevel (logrus.Sprintf format args).

(** ** The package *)

(** [fmt.Errorf(prefix + "%w", err)]. *)
Definition fmt_Errorf_w (prefix : string) (err : error) : error := wrapError prefix err.

(** setupFormatter: text for the console (alone or with a file), JSON for
    a file alone; any other output leaves the engine's formatter as it
    is. The error returned is always nil. *)
Definition setupFormatter (lg : ptr) (config : Config) : M (option error) :=
  _ ← (if decide (Output config = ConsoleOutput ∨ Output config = BothOutput) then
         logrus_SetFormatter lg (logrus.TextFormatter true)
       else if decide (Output config = FileOutput) then
         logrus_SetFormatter lg logrus.JSONFormatter
       else mret tt);
  mret None.

(** The tail of setupOutput: one writer is used as it is, several are
    fanned out; [writers[0]] on an empty slice panics. *)
Definition install_writers (lg : ptr) (writers : list io.Writer) : M (option error) :=
  if decide (1 < length writers) then
    _ ← logrus_SetOutput lg (io.MultiWriter writers);
    mret None
  else
    match writers with
    | w0 :: _ => _ ← logrus_SetOutput lg w0; mret None
    | [] => panic (RuntimeError "index out of range [0] with length 0")
    end.

(** [os.OpenFile(config.FilePath, os.O_CREATE|os.O_WRONLY|os.O_APPEND, 0640)];
    416 is octal 640. *)
Definition open_log_file (config : Config) : M (nat + error) :=
  os_OpenFile (FilePath config) (Z.lor (Z.lor O_CREATE O_WRONLY) O_APPEND) 416.

Definition setupOutput (lg : ptr) (config : Config) : M (option error) :=
  let writers : list io.Writer := [] in
  if decide (Output config = ConsoleOutput) then
    install_writers lg (writers ++ [io.Stdout])
  else if decide (Output config = FileOutput) then
    if decide (FilePath config = "") then
      mret (Some (errorString "file path is required for file output"))
    else
      r ← open_log_file config;
      match r with
      | inr err => mret (Some (fmt_Errorf_w "failed to open log file: " err))
      | inl file => install_writers lg (writers ++ [io.File file])
      end
  else if decide (Output config = BothOutput) then
    let writers := writers ++ [io.Stdout] in
    if decide (FilePath config ≠ "") then
      r ← open_log_file config;
      match r with
      | inr err => mret (Some (fmt_Errorf_w "failed to open log file: " err))
      | inl file => install_writers lg (writers ++ [io.File file])
      end
    else install_writers lg writers
  else
    mret (Some (errorString ("unsupported output type: " +:+ Output config))).

(** New: the engine is created and configured first; the [Logger] is
    allocated only when both setup steps returned nil. *)
Definition New (config : Config) : M (ptr * option error) :=
  lg ← logrus_New;
  _ ← logrus_SetLevel lg (Level config);
  err ← setupFormatter lg config;
  match err with
  | Some err => mret (nil_ptr, Some (fmt_Errorf_w "failed to setup formatter: " err))
  | None =>
      err ← setupOutput lg config;
      match err with
      | Some err => mret (nil_ptr, Some (fmt_Errorf_w "failed to setup output: " err))
      | None =>
          l ← alloc_Logger (mkLogger lg "");
          mret (l, None)
      end
  end.

(** The map withFields fills: the service name always; the function
    name when [runtime.Caller(2)] succeeds and [runtime.FuncForPC] knows the
    function; "basename:line" when [runtime.Caller(2)] succeeds. [stack]
    starts with the frame of withFields itself. *)
Definition base_fields (name : string) (stack : list Frame) : gmap string value :=
  let fields : gmap string value := ∅ in
  let fields := <["service" := VString name]> fields in
  match runtime_Caller 2 stack with
  | Some pc =>
      let fields :=
        match runtime_FuncForPC pc with
        | Some fn => <["func" := VString fn]> fields
        | None => fields
        end in
      <["file" := VString (filepath_Base (frame_file pc) +:+ ":" +:+ pretty (frame_line pc))]>
        fields
  | None => fields
  end.

Arguments base_fields : simpl never.

(** withFields: the base fields of every entry. [stack] is the call
    stack of the method that calls withFields, innermost frame first. *)
Definition withFields (l : ptr) (stack : list Frame) : M logrus.Entry :=
  self ← load_Logger l;
  let fields := base_fields (serviceName self) (own_frame "withFields" :: stack) in
  logrus_WithFields (logger self) fields.

Definition WithService (l : ptr) (name : string) : M ptr :=
  self ← load_Logger l;
  alloc_Logger (mkLogger (logger self) name).

Definition WithGroup (l : ptr) (group : string) : M ptr :=
  self ← load_Logger l;
  let name := serviceName self in
  let name := if decide (name ≠ "") then name +:+ "." +:+ group else group in
  alloc_Logger (mkLogger (logger self) name).

Definition SetLevel (l : ptr) (level : logrus.Level) : M unit :=
  self ← load_Logger l;
  logrus_SetLevel (logger self) level.

Definition GetLevel (l : ptr) : M logrus.Level :=
  self ← load_Logger l;
  logrus_GetLevel (logger self).

(** The twelve forwarding methods. Each pushes its own frame, asks
    withFields for the entry and hands it to the engine. [stack] is the
    call stack of the application code that calls the method. *)
Definition Debug (l : ptr) (args : list value) (stack : list Frame) : M unit :=
  e ← withFields l (own_frame "Debug" :: stack); Entry_Debug e args.
Definition Debugf (l : ptr) (format : string) (args : list value) (stack : list Frame) : M unit :=
  e ← withFields l (own_frame "Debugf" :: stack); Entry_Debugf e format args.
Definition Info (l : ptr) (args : list value) (stack : list Frame) : M unit :=
  e ← withFields l (own_frame "Info" :: stack); Entry_Info e args.
Definition Infof (l : ptr) (format : string) (args : list value) (stack : list Frame) : M unit :=
  e ← withFields l (own_frame "Infof" :: stack); Entry_Infof e format args.
Definition Warn (l : ptr) (args : list value) (stack : list Frame) : M unit :=
  e ← withFields l (own_frame "Warn" :: stack); Entry_Warn e args.
Definition Warnf (l : ptr) (format : string) (args : list value) (stack : list Frame) : M unit :=
  e ← withFields l (own_frame "Warnf" :: stack); Entry_Warnf e format args.
Definition Error (l : ptr) (args : list value) (stack : list Frame) : M unit :=
  e ← withFields l (own_frame "Error" :: stack); Entry_Error e args.
Definition Errorf (l : ptr) (format : string) (args : list value) (stack : list Frame) : M unit :=
  e ← withFields l (own_frame "Errorf" :: stack); Entry_Errorf e format args.
Definition Fatal (l : ptr) (args : list value) (stack : list Frame) : M unit :=
  e ← withFields l (own_frame "Fatal" :: stack); Entry_Fatal e args.
Definition Fatalf (l : ptr) (format : string) (args : list value) (stack : list Frame) : M unit :=
  e ← withFields l (own_frame "Fatalf" :: stack); Entry_Fatalf e format args.
Definition Panic (l : ptr) (args : list value) (stack : list Frame) : M unit :=
  e ← withFields l (own_frame "Panic" :: stack); Entry_Panic e args.
Definition Panicf (l : ptr) (format : string) (args : list value) (stack : list Frame) : M unit :=
  e ← withFields l (own_frame "Panicf" :: stack); Entry_Panicf e format args.

(** The three builders: base fields first, then the caller's. *)
Definition WithField (l : ptr) (key : string) (v : value) (stack : list Frame) : M logrus.Entry :=
  e ← withFields l (own_frame "WithField" :: stack); mret (Entry_WithField e key v).
Definition WithFields (l : ptr) (fields : gmap string value) (stack : list Frame) : M logrus.Entry :=
  e ← withFields l (own_frame "WithFields" :: stack); mret (Entry_WithFields e fields).
Definition WithError (l : ptr) (err : error) (stack : list Frame) : M logrus.Entry :=
  e ← withFields l (own_frame "WithError" :: stack); mret (Entry_WithError e err).

(** A log call: which of the twelve methods, and its arguments. *)
Inductive LogCall : Type :=
| CallDebug (args : list value)
| CallDebugf (format : string) (args : list value)
| CallInfo (args : list value)
| CallInfof (format : string) (args : list value)
| CallWarn (args : list value)
| CallWarnf (format : string) (args : list value)
| CallError (args : list value)
| CallErrorf (format : string) (args : list value)
| CallFatal (args : list value)
| CallFatalf (format : string) (args : list value)
| CallPanic (args : list value)
| CallPanicf (format : string) (args : list value).

Definition level_of (c : LogCall) : logrus.Level :=
  match c with
  | CallDebug _ | CallDebugf _ _ => logrus.DebugLevel
  | CallInfo _ | CallInfof _ _ => logrus.InfoLevel
  | CallWarn _ | CallWarnf _ _ => logrus.WarnLevel
  | CallError _ | CallErrorf _ _ => logrus.ErrorLevel
  | CallFatal _ | CallFatalf _ _ => logrus.FatalLevel
  | CallPanic _ | CallPanicf _ _ => logrus.PanicLevel
  end.

Definition message_of (c : LogCall) : logrus.Message :=
  match c with
  | CallDebug args | CallInfo args | CallWarn args | CallError args
  | CallFatal args | CallPanic args => logrus.Sprint args
  | CallDebugf format args | CallInfof format args | CallWarnf format args
  | CallErrorf format args | CallFatalf format args | CallPanicf format args =>
      logrus.Sprintf format args
  end.

Definition method_of (c : LogCall) : string :=
  match c with
  | CallDebug _ => "Debug" | CallDebugf _ _ => "Debugf"
  | CallInfo _ => "Info" | CallInfof _ _ => "Infof"
  | CallWarn _ => "Warn" | CallWarnf _ _ => "Warnf"
  | CallError _ => "Error" | CallErrorf _ _ => "Errorf"
  | CallFatal _ => "Fatal" | CallFatalf _ _ => "Fatalf"
  | CallPanic _ => "Panic" | CallPanicf _ _ => "Panicf"
  end.

(** The severities whose call is meant to end the process or panic. *)
Definition ends_process (c : LogCall) : bool :=
  match c with
  | CallFatal _ | CallFatalf _ _ | CallPanic _ | CallPanicf _ _ => true
  | _ => false
  end.

Definition run_call (c : LogCall) (l : ptr) (stack : list Frame) : M unit :=
  match c with
  | CallDebug args => Debug l args stack
  | CallDebugf format args => Debugf l format args stack
  | CallInfo args => Info l args stack
  | CallInfof format args => Infof l format args stack
  | CallWarn args => Warn l args stack
  | CallWarnf format args => Warnf l format args stack
  | CallError args => Error l args stack
  | CallErrorf format args => Errorf l format args stack
  | CallFatal args => Fatal l args stack
  | CallFatalf format args => Fatalf l format args stack
  | CallPanic args => Panic l args stack
  | CallPanicf format args => Panicf l format args stack
  end.

(** ** Reading the model *)

(** The engine behind a handle, if both pointers are live. *)
Definition sink_of (w : World) (l : ptr) : option logrus.Logger :=
  match l with
  | addr a =>
      match handles w !! a with
      | Some self =>
          match logger self with
          | addr b => engines w !! b
          | nil_ptr => None
          end
      | None => None
      end
  | nil_ptr => None
  end.

Definition handle_of (w : World) (l : ptr) : option Logger :=
  match l with
  | addr a => handles w !! a
  | nil_ptr => None
  end.

(** An empty process: nothing allocated, every path can be opened. *)
Definition empty_world : World := mkWorld [] [] [] [] (fun _ => None).

(** The same, on a file system that refuses every path with EACCES. *)
Definition locked_world : World := mkWorld [] [] [] [] (fun _ => Some 13%N).

(** The spec's error taxonomy, read off the innermost error. *)
Definition is_ConfigurationError (e : error) : bool :=
  match root_cause e with
  | errorString s =>
      bool_decide (s = "file path is required for file output")
      || String.prefix "unsupported output type: " s
  | _ => false
  end.

Definition is_IOError (e : error) : bool :=
  match root_cause e with
  | PathError _ _ _ => true
  | _ => false
  end.

Definition app_stack : list Frame :=
  [mkFrame (Some "main.main") "/home/dev/app/cmd/main.go" 21;
   mkFrame (Some "runtime.main") "/usr/local/go/src/runtime/proc.go" 272].

(** The lines a run added to the world it started from. *)
Definition emitted {A : Type} (w : World) (o : Outcome A) : list logrus.Line :=
  drop (length (written w)) (written (world_of o)).

(** What a derivation may change: it allocates a [Logger] and touches
    nothing else (no engine, no file, no written line, no existing
    [Logger]). *)
Definition only_allocates (w w' : World) : Prop :=
  engines w' = engines w /\ files w' = files w /\ written w' = written w
  /\ open_errno w' = open_errno w
  /\ forall p self, handle_of w p = Some self -> handle_of w' p = Some self.

(** The spec's reading of the format field: it picks the formatter,
    "json" the JSON one and "text" a text one. *)
Definition honors_format (config : Config) (f : logrus.Formatter) : Prop :=
  (Format config = "json" -> f = logrus.JSONFormatter)
  /\ (Format config = "text" -> exists full, f = logrus.TextFormatter full).

(** ** Shapes of the worlds New produces *)

(** The formatter setupFormatter leaves on an engine whose formatter was
    [old]. *)
Definition formatter_after (config : Config) (old : logrus.Formatter) : logrus.Formatter :=
  if decide (Output config = ConsoleOutput ∨ Output config = BothOutput) then
    logrus.TextFormatter true
  else if decide (Output config = FileOutput) then logrus.JSONFormatter
  else old.

(** The world in which New runs its setup steps: [w] plus the new engine. *)
Definition with_engine (w : World) (e : logrus.Logger) (fs : list OpenedFile) : World :=
  mkWorld (engines w ++ [e]) (handles w) fs (written w) (open_errno w).

(** The world New returns on success. *)
Definition with_logger (w : World) (e : logrus.Logger) (fs : list OpenedFile) : World :=
  mkWorld (engines w ++ [e]) (handles w ++ [mkLogger (addr (length (engines w))) ""])
          fs (written w) (open_errno w).

Definition log_file (config : Config) : OpenedFile :=
  mkOpenedFile (FilePath config) (Z.lor (Z.lor O_CREATE O_WRONLY) O_APPEND) 416.

(** ** Further constants and programs *)

(** [os.O_TRUNC], the flag the package does not pass. *)
Definition O_TRUNC : Z := 0x200.

(** One step of deriving a logger from another, and a chain of such
    steps, as in [l.WithService(s).WithGroup(g1).WithGroup(g2)]. *)
Inductive Derivation : Type :=
| ByService (name : string)
| ByGroup (group : string).

Definition derive_step (l : ptr) (d : Derivation) : M ptr :=
  match d with
  | ByService name => WithService l name
  | ByGroup group => WithGroup l group
  end.

Fixpoint derive (l : ptr) (ds : list Derivation) : M ptr :=
  match ds with
  | [] => mret l
  | d :: ds' => l' ← derive_step l d; derive l' ds'
  end.

(** [name.g1.g2...]: the groups appended to a name, each after a dot. *)
Definition dotted (name : string) (groups : list string) : string :=
  foldl (fun acc g => acc +:+ "." +:+ g) name groups.

(** ** The example service (package examplesvc) *)

(** A compiled source file as the runtime reports its frames: the path
    recorded for it and the symbol name of each of its functions. *)
Record SourceFile : Type := mkSourceFile {
  sf_path : string;
  sf_func : string -> option string
}.

Definition frame_in (src : SourceFile) (fn : string) (line : Z) : Frame :=
  mkFrame (sf_func src fn) (sf_path src) line.

(** [Service]: one field, the logger. The struct is never changed after
    NewService, so a [*Service] is modelled by its value. *)
Record Service : Type := mkService {
  svc_logger : ptr
}.

Definition NewService (lg : ptr) : Service := mkService lg.

(** Run: four log calls and one entry with an "error" field, at lines
    18 to 23 of service.go. [stack] is the stack of Run's caller. *)
Definition Run (src : SourceFile) (s : Service) (stack : list Frame) : M unit :=
  let here (line : Z) := frame_in src "Run" line :: stack in
  _ ← Info (svc_logger s) [VString "Service started"] (here 18%Z);
  _ ← Debug (svc_logger s) [VString "Debug message from service"] (here 19%Z);
  _ ← Warn (svc_logger s) [VString "Warning message from service"] (here 20%Z);
  _ ← Error (svc_logger s) [VString "Error message from service"] (here 21%Z);
  e ← WithField (svc_logger s) "error" (VError (errorString "test error")) (here 23%Z);
  Entry_Error e [VString "Error message from service"].

Definition Shutdown (src : SourceFile) (s : Service) (stack : list Frame) : M unit :=
  Info (svc_logger s) [VString "Service shutdown"] (frame_in src "Shutdown" 27 :: stack).

(** What Run logs, in order: level and message. *)
Definition Run_script : list (logrus.Level * logrus.Message) :=
  [(InfoLevel, logrus.Sprint [VString "Service started"]);
   (DebugLevel, logrus.Sprint [VString "Debug message from service"]);
   (WarnLevel, logrus.Sprint [VString "Warning message from service"]);
   (ErrorLevel, logrus.Sprint [VString "Error message from service"]);
   (ErrorLevel, logrus.Sprint [VString "Error message from service"])].

(** ** The example program (package main) *)

(** [log.Fatalf] of the standard library: the message goes to the
    standard logger, which is no engine of this world, then [os.Exit(1)]. *)
Definition log_Fatalf {A : Type} : M A := exit 1.

(** [defer f(); rest]: [f] runs when the rest of the function has
    returned or panicked, and does not run when the process exits. *)
Definition defer {A : Type} (deferred : M unit) (rest : M A) : M A := fun w =>
  match rest w with
  | Returned a w' => (_ ← deferred; mret a) w'
  | Panicked v w' =>
      match deferred w' with
      | Returned _ w'' => Panicked v w''
      | Panicked v' w'' => Panicked v' w''
      | Exited c w'' => Exited c w''
      end
  | Exited c w' => Exited c w'
  end.

(** main: a console logger with two services, then a file logger with a
    third; each service is run at once and shut down by a deferred call.
    The deferred calls are made from the closing line of main (54). *)
Definition main (src_main src_svc : SourceFile) (stack : list Frame) : M unit :=
  let here (line : Z) := frame_in src_main "main" line :: stack in
  let cfgConsoleOutput := mkConfig DebugLevel ConsoleOutput "" "text" in
  r ← New cfgConsoleOutput;
  match r.2 with
  | Some _ => log_Fatalf
  | None =>
      let lg := r.1 in
      _ ← Info lg [VString "Logger created successfully"] (here 21%Z);
      serviceLogger ← WithService lg "service1";
      let service := NewService serviceLogger in
      _ ← Run src_svc service (here 26%Z);
      defer (Shutdown src_svc service (here 54%Z))
        (serviceLogger2 ← WithService lg "service2";
         let service2 := NewService serviceLogger2 in
         _ ← Run src_svc service2 (here 32%Z);
         defer (Shutdown src_svc service2 (here 54%Z))
           (let cfgFileOutputJson :=
              mkConfig DebugLevel FileOutput "logs/json_output.json" "json" in
            r2 ← New cfgFileOutputJson;
            match r2.2 with
            | Some _ => log_Fatalf
            | None =>
                let logger2 := r2.1 in
                _ ← Info logger2 [VString "Logger2 created successfully"] (here 47%Z);
                serviceLogger3 ← WithService logger2 "service3";
                let service3 := NewService serviceLogger3 in
                _ ← Run src_svc service3 (here 52%Z);
                defer (Shutdown src_svc service3 (here 54%Z)) (mret tt)
            end))
  end.

(** A process at its start: nothing allocated, over a given file
    system. *)
Definition fresh_process (fs : string -> option N) : World := mkWorld [] [] [] [] fs.

(** The file system [fs] with the answer for one path fixed: [None] if it
    opens, the errno if it does not. *)
Definition with_path (path : string) (answer : option N) (fs : string -> option N)
  : string -> option N :=
  fun p => if decide (p = path) then answer else fs p.

(** One written line, reduced to where it went, whose service it names
    and what it says. *)
Definition digest (ln : logrus.Line) : io.Writer * option value * logrus.Message :=
  (logrus.line_out ln, logrus.line_data ln !! "service", logrus.line_msg ln).

Definition says (out : io.Writer) (service text : string)
  : io.Writer * option value * logrus.Message :=
  (out, Some (VString service), logrus.Sprint [VString text]).

(** The five lines of Run, digested. *)
Definition Run_digest (out : io.Writer) (service : string)
  : list (io.Writer * option value * logrus.Message) :=
  [says out service "Service started";
   says out service "Debug message from service";
   says out service "Warning message from service";
   says out service "Error message from service";
   says out service "Error message from service"].

(** A log call made on an entry, as in [l.WithField(k, v).Error(args)]:
    the engine's method of the same name. *)
Definition entry_call (c : LogCall) (e : logrus.Entry) : M unit :=
  match c with
  | CallDebug args => Entry_Debug e args
  | CallDebugf format args => Entry_Debugf e format args
  | CallInfo args => Entry_Info e args
  | CallInfof format args => Entry_Infof e format args
  | CallWarn args => Entry_Warn e args
  | CallWarnf format args => Entry_Warnf e format args
  | CallError args => Entry_Error e args
  | CallErrorf format args => Entry_Errorf e format args
  | CallFatal args => Entry_Fatal e args
  | CallFatalf format args => Entry_Fatalf e format args
  | CallPanic args => Entry_Panic e args
  | CallPanicf format args => Entry_Panicf e format args
  end.

(** A frame the runtime reports without being able to name its function. *)
Definition unnamed_site : Frame := mkFrame None "/app/plugin/x.go" 7.

(** A console logger at level info, as New leaves it, and a second
    [Logger] named "svc" on the same engine. *)
Definition svc_world : World :=
  mkWorld [logrus.mkLogger io.Stdout (logrus.TextFormatter true) InfoLevel]
          [mkLogger (addr 0) ""; mkLogger (addr 0) "svc"] [] [] (fun _ => None).

(** ** Running the model on concrete inputs *)

Example Base_examples :
  (filepath_Base "/a/b/c.go", filepath_Base "", filepath_Base "///",
   filepath_Base "x/", filepath_Base "abc") = ("c.go", ".", "/", "x", "abc").
Proof. reflexivity. Qed.

Example New_console_text :
  New (mkConfig InfoLevel ConsoleOutput "" "text") empty_world
  = Returned (addr 0, None)
      (mkWorld [logrus.mkLogger io.Stdout (logrus.TextFormatter true) InfoLevel]
               [mkLogger (addr 0) ""] [] [] (open_errno empty_world)).
Proof. reflexivity. Qed.

Example New_file_without_path :
  New (mkConfig InfoLevel FileOutput "" "text") empty_world
  = Returned (nil_ptr, Some (wrapError "failed to setup output: "
                               (errorString "file path is required for file output")))
      (mkWorld [logrus.mkLogger io.Stderr logrus.JSONFormatter InfoLevel]
               [] [] [] (open_errno empty_world)).
Proof. reflexivity. Qed.

Example New_invalid_output :
  New (mkConfig InfoLevel "invalid" "" "text") empty_world
  = Returned (nil_ptr, Some (wrapError "failed to setup output: "
                               (errorString "unsupported output type: invalid")))
      (mkWorld [logrus.mkLogger io.Stderr (logrus.TextFormatter false) InfoLevel]
               [] [] [] (open_errno empty_world)).
Proof. reflexivity. Qed.

Example New_both_locked :
  New (mkConfig InfoLevel BothOutput "/tmp/x.log" "json") locked_world
  = Returned (nil_ptr, Some (wrapError "failed to setup output: "
                               (wrapError "failed to open log file: "
                                  (PathError "open" "/tmp/x.log" 13))))
      (mkWorld [logrus.mkLogger io.Stderr (logrus.TextFormatter true) InfoLevel]
               [] [] [] (open_errno locked_world)).
Proof. reflexivity. Qed.

Example New_both_locked_is_IOError :
  match New (mkConfig InfoLevel BothOutput "/tmp/x.log" "json") locked_world with
  | Returned (l, Some err) _ =>
      l = nil_ptr /\ is_IOError err = true /\ is_ConfigurationError err = false
  | _ => False
  end.
Proof. by vm_compute. Qed.

(** The spec's scenario: level info on the console; Info writes one
    line at level info to standard output, a later Debug writes none. *)
Example Info_then_Debug :
  match (r ← New (mkConfig InfoLevel ConsoleOutput "" "text");
         _ ← Info r.1 [VString "Service started"] app_stack;
         Debug r.1 [VString "x"] app_stack) empty_world with
  | Returned _ w =>
      (fun ln => (logrus.line_level ln, logrus.line_msg ln, logrus.line_out ln,
                  logrus.line_data ln !! "service", logrus.line_data ln !! "func",
                  logrus.line_data ln !! "file")) <$> written w
      = [(InfoLevel, logrus.Sprint [VString "Service started"], io.Stdout,
          Some (VString ""), Some (VString "main.main"), Some (VString "main.go:21"))]
  | _ => False
  end.
Proof. by vm_compute. Qed.

(** A key "service" given to a builder replaces the base field in the
    entry the engine returns. *)
Example WithField_service_overrides :
  match (r ← New (mkConfig InfoLevel ConsoleOutput "" "text");
         l ← WithService r.1 "svc";
         WithField l "service" (VString "other") app_stack) empty_world with
  | Returned e _ => logrus.Data e !! "service" = Some (VString "other")
  | _ => False
  end.
Proof. by vm_compute. Qed.

Example pretty_line_numbers : (pretty 0%Z, pretty 21%Z, pretty 1000%Z) = ("0", "21", "1000").
Proof. reflexivity. Qed.

(** ** Heap lemmas: the engine allocated last *)

Ltac unfold_M := unfold mbind, M_bind, mret, M_ret in *.

Section LastEngine.
Variables (h : list logrus.Logger) (e : logrus.Logger).
Variables (hs : list Logger) (fs : list OpenedFile) (ws : list logrus.Line).
Variable oe : string -> option N.

Let here (x : logrus.Logger) : World := mkWorld (h ++ [x]) hs fs ws oe.

Lemma load_engine_last : load_engine (addr (length h)) (here e) = Returned e (here e).
Proof.
  unfold load_engine, deref, here; simpl.
  by rewrite list_lookup_middle.
Qed.

Lemma store_engine_last e' :
  store_engine (addr (length h)) e' (here e) = Returned tt (here e').
Proof.
  unfold store_engine, set_engines, here; simpl.
  rewrite list_lookup_middle by done.
  rewrite insert_app_r_alt by lia.
  by rewrite Nat.sub_diag.
Qed.

Lemma logrus_SetLevel_last level :
  logrus_SetLevel (addr (length h)) level (here e)
  = Returned tt (here (logrus.mkLogger (logrus.Out e) (logrus.Fmt e) level)).
Proof.
  unfold logrus_SetLevel; unfold_M.
  by rewrite load_engine_last, store_engine_last.
Qed.

Lemma logrus_SetFormatter_last formatter :
  logrus_SetFormatter (addr (length h)) formatter (here e)
  = Returned tt (here (logrus.mkLogger (logrus.Out e) formatter (logrus.Lvl e))).
Proof.
  unfold logrus_SetFormatter; unfold_M.
  by rewrite load_engine_last, store_engine_last.
Qed.

Lemma logrus_SetOutput_last output :
  logrus_SetOutput (addr (length h)) output (here e)
  = Returned tt (here (logrus.mkLogger output (logrus.Fmt e) (logrus.Lvl e))).
Proof.
  unfold logrus_SetOutput; unfold_M.
  by rewrite load_engine_last, store_engine_last.
Qed.
End LastEngine.

(** ** What New does, branch by branch *)

Lemma setupFormatter_last w e fs config :
  setupFormatter (addr (length (engines w))) config (with_engine w e fs)
  = Returned None
      (with_engine w (logrus.mkLogger (logrus.Out e) (formatter_after config (logrus.Fmt e))
                                      (logrus.Lvl e)) fs).
Proof.
  unfold setupFormatter, formatter_after, with_engine; unfold_M.
  repeat case_decide; rewrite ?logrus_SetFormatter_last; try done.
  by destruct e.
Qed.

Lemma install_writers_last w e fs w0 ws :
  install_writers (addr (length (engines w))) (w0 :: ws) (with_engine w e fs)
  = Returned None
      (with_engine w
         (logrus.mkLogger (match ws with [] => w0 | _ => io.MultiWriter (w0 :: ws) end)
                          (logrus.Fmt e) (logrus.Lvl e)) fs).
Proof.
  unfold install_writers, with_engine; unfold_M.
  destruct ws as [|w1 ws]; simpl; try case_decide; try lia;
    by rewrite logrus_SetOutput_last.
Qed.

Lemma New_runs_setupOutput config w :
  New config w
  = (err ← setupOutput (addr (length (engines w))) config;
     match err with
     | Some err => mret (nil_ptr, Some (fmt_Errorf_w "failed to setup output: " err))
     | None => l ← alloc_Logger (mkLogger (addr (length (engines w))) ""); mret (l, None)
     end)
      (with_engine w (logrus.mkLogger io.Stderr
                        (formatter_after config (logrus.TextFormatter false))
                        (Level config)) (files w)).
Proof.
  unfold New, logrus_New, alloc_engine, set_engines.
  unfold mbind at 1 2 3; unfold M_bind at 1 2 3.
  change (mkWorld (engines w ++ _) _ _ _ _) with
    (with_engine w (logrus.mkLogger io.Stderr (logrus.TextFormatter false) logrus.InfoLevel)
                 (files w)).
  unfold with_engine at 1. rewrite logrus_SetLevel_last. simpl.
  fold (with_engine w (logrus.mkLogger io.Stderr (logrus.TextFormatter false) (Level config))
                    (files w)).
  by rewrite setupFormatter_last.
Qed.

Ltac by_output :=
  repeat case_decide;
  repeat match goal with
         | H : _ ∨ _ |- _ => destruct H
         | H : ¬ (_ ∨ _) |- _ => apply Decidable.not_or in H; destruct H
         end;
  try congruence;
  try match goal with
      | H1 : Output ?c = _, H2 : Output ?c = _ |- _ => rewrite H1 in H2; discriminate H2
      end.

Ltac run_New :=
  rewrite New_runs_setupOutput;
  unfold setupOutput, formatter_after, open_log_file, os_OpenFile; unfold_M;
  by_output.

Section NewBranches.
Variables (config : Config) (w : World).

Let lv := Level config.

Lemma New_console :
  Output config = ConsoleOutput ->
  New config w
  = Returned (addr (length (handles w)), None)
      (with_logger w (logrus.mkLogger io.Stdout (logrus.TextFormatter true) lv) (files w)).
Proof. intros Ho. run_New. simpl. by rewrite install_writers_last. Qed.

Lemma New_file :
  Output config = FileOutput -> FilePath config ≠ "" ->
  open_errno w (FilePath config) = None ->
  New config w
  = Returned (addr (length (handles w)), None)
      (with_logger w (logrus.mkLogger (io.File (length (files w))) logrus.JSONFormatter lv)
                   (files w ++ [log_file config])).
Proof.
  intros Ho Hp Hopen. run_New. simpl. rewrite Hopen.
  unfold set_files; simpl.
  change (mkWorld (engines w ++ [?e]) (handles w) ?fs (written w) (open_errno w))
    with (with_engine w e fs).
  by rewrite install_writers_last.
Qed.

Lemma New_file_no_path :
  Output config = FileOutput -> FilePath config = "" ->
  New config w
  = Returned (nil_ptr, Some (wrapError "failed to setup output: "
                               (errorString "file path is required for file output")))
      (with_engine w (logrus.mkLogger io.Stderr logrus.JSONFormatter lv) (files w)).
Proof. intros Ho Hp. by run_New. Qed.

Lemma New_file_denied errno :
  Output config = FileOutput -> FilePath config ≠ "" ->
  open_errno w (FilePath config) = Some errno ->
  New config w
  = Returned (nil_ptr, Some (wrapError "failed to setup output: "
                               (wrapError "failed to open log file: "
                                  (PathError "open" (FilePath config) errno))))
      (with_engine w (logrus.mkLogger io.Stderr logrus.JSONFormatter lv) (files w)).
Proof. intros Ho Hp Hopen. run_New. simpl. by rewrite Hopen. Qed.

Lemma New_both :
  Output config = BothOutput -> FilePath config ≠ "" ->
  open_errno w (FilePath config) = None ->
  New config w
  = Returned (addr (length (handles w)), None)
      (with_logger w
         (logrus.mkLogger (io.MultiWriter [io.Stdout; io.File (length (files w))])
                          (logrus.TextFormatter true) lv)
         (files w ++ [log_file config])).
Proof.
  intros Ho Hp Hopen. run_New. simpl. rewrite Hopen.
  unfold set_files; simpl.
  change (mkWorld (engines w ++ [?e]) (handles w) ?fs (written w) (open_errno w))
    with (with_engine w e fs).
  by rewrite install_writers_last.
Qed.

Lemma New_both_no_path :
  Output config = BothOutput -> FilePath config = "" ->
  New config w
  = Returned (addr (length (handles w)), None)
      (with_logger w (logrus.mkLogger io.Stdout (logrus.TextFormatter true) lv) (files w)).
Proof. intros Ho Hp. run_New. simpl. by rewrite install_writers_last. Qed.

Lemma New_both_denied errno :
  Output config = BothOutput -> FilePath config ≠ "" ->
  open_errno w (FilePath config) = Some errno ->
  New config w
  = Returned (nil_ptr, Some (wrapError "failed to setup output: "
                               (wrapError "failed to open log file: "
                                  (PathError "open" (FilePath config) errno))))
      (with_engine w (logrus.mkLogger io.Stderr (logrus.TextFormatter true) lv) (files w)).
Proof. intros Ho Hp Hopen. run_New. simpl. by rewrite Hopen. Qed.

Lemma New_unsupported :
  Output config ≠ ConsoleOutput -> Output config ≠ FileOutput ->
  Output config ≠ BothOutput ->
  New config w
  = Returned (nil_ptr, Some (wrapError "failed to setup output: "
                               (errorString ("unsupported output type: " +:+ Output config))))
      (with_engine w (logrus.mkLogger io.Stderr (logrus.TextFormatter false) lv) (files w)).
Proof. intros H1 H2 H3. by run_New. Qed.
End NewBranches.

(** Every run of New is one of the eight branches above. *)
Ltac New_branches config w :=
  destruct (decide (Output config = ConsoleOutput)) as [Hconsole|Hconsole];
  [ rewrite (New_console config w Hconsole) in *
  | destruct (decide (Output config = FileOutput)) as [Hfile|Hfile];
    [ destruct (decide (FilePath config = "")) as [Hpath|Hpath];
      [ rewrite (New_file_no_path config w Hfile Hpath) in *
      | destruct (open_errno w (FilePath config)) as [errno|] eqn:Hopen;
        [ rewrite (New_file_denied config w errno Hfile Hpath Hopen) in *
        | rewrite (New_file config w Hfile Hpath Hopen) in * ] ]
    | destruct (decide (Output config = BothOutput)) as [Hboth|Hboth];
      [ destruct (decide (FilePath config = "")) as [Hpath|Hpath];
        [ rewrite (New_both_no_path config w Hboth Hpath) in *
        | destruct (open_errno w (FilePath config)) as [errno|] eqn:Hopen;
          [ rewrite (New_both_denied config w errno Hboth Hpath Hopen) in *
          | rewrite (New_both config w Hboth Hpath Hopen) in * ] ]
      | rewrite (New_unsupported config w Hconsole Hfile Hboth) in * ] ] ].

Lemma handle_of_with_logger w e fs :
  handle_of (with_logger w e fs) (addr (length (handles w)))
  = Some (mkLogger (addr (length (engines w))) "").
Proof. unfold handle_of, with_logger; simpl. by rewrite list_lookup_middle. Qed.

Lemma sink_of_with_logger w e fs :
  sink_of (with_logger w e fs) (addr (length (handles w))) = Some e.
Proof.
  unfold sink_of, with_logger; simpl.
  rewrite list_lookup_middle by done; simpl.
  by rewrite list_lookup_middle.
Qed.

(** ** Heap lemmas: any live engine, any live handle *)

Lemma load_engine_live w a e :
  engines w !! a = Some e -> load_engine (addr a) w = Returned e w.
Proof. intros H. unfold load_engine, deref. by rewrite H. Qed.

Lemma store_engine_live w a e e' :
  engines w !! a = Some e ->
  store_engine (addr a) e' w = Returned tt (set_engines (fun h => <[a := e']> h) w).
Proof. intros H. unfold store_engine. by rewrite H. Qed.

Lemma load_Logger_live w l self :
  handle_of w l = Some self -> load_Logger l w = Returned self w.
Proof.
  destruct l as [|a]; [done|]. simpl. intros H.
  unfold load_Logger, deref. by rewrite H.
Qed.

Lemma sink_of_live w l e :
  sink_of w l = Some e ->
  exists self a, handle_of w l = Some self /\ logger self = addr a /\ engines w !! a = Some e.
Proof.
  destruct l as [|p]; [done|]. simpl.
  destruct (handles w !! p) as [self|] eqn:Hself; [|done].
  destruct (logger self) as [|a] eqn:Hlg; [done|].
  intros He. by exists self, a.
Qed.

Lemma GetLevel_live w l e :
  sink_of w l = Some e -> GetLevel l w = Returned (logrus.Lvl e) w.
Proof.
  intros (self & a & Hself & Hlg & He)%sink_of_live.
  unfold GetLevel, logrus_GetLevel; unfold_M.
  rewrite (load_Logger_live _ _ _ Hself), Hlg.
  by rewrite (load_engine_live _ _ _ He).
Qed.

(** ** The builder *)

(** C1. New fails with a configuration error when output is "file" and
    file_path is empty, and when output is none of "console", "file",
    "both". In both cases the logger returned with the error is nil and
    no [Logger] has been allocated. *)
Theorem New_rejects_invalid_configuration (config : Config) (w : World) :
  (Output config = FileOutput /\ FilePath config = "")
  \/ (Output config ≠ ConsoleOutput /\ Output config ≠ FileOutput
      /\ Output config ≠ BothOutput) ->
  exists err w',
    New config w = Returned (nil_ptr, Some err) w'
    /\ is_ConfigurationError err = true
    /\ handles w' = handles w.
Proof.
  intros [[Ho Hp] | (H1 & H2 & H3)].
  - rewrite (New_file_no_path config w Ho Hp). by eexists _, _.
  - rewrite (New_unsupported config w H1 H2 H3).
    eexists _, _. split; [reflexivity|]. split; [|done].
    unfold is_ConfigurationError. simpl. by destruct (Output config).
Qed.

Lemma New_rejects_invalid_configuration_witness :
  (exists err w',
      New (mkConfig InfoLevel FileOutput "" "text") empty_world
      = Returned (nil_ptr, Some err) w'
      /\ is_ConfigurationError err = true /\ handles w' = handles empty_world)
  /\ (exists err w',
         New (mkConfig InfoLevel "invalid" "" "text") empty_world
         = Returned (nil_ptr, Some err) w'
         /\ is_ConfigurationError err = true /\ handles w' = handles empty_world).
Proof.
  split.
  - apply (New_rejects_invalid_configuration
             (mkConfig InfoLevel FileOutput "" "text") empty_world).
    left. split; reflexivity.
  - apply (New_rejects_invalid_configuration
             (mkConfig InfoLevel "invalid" "" "text") empty_world).
    right. repeat split; discriminate.
Defined.

(** The engine and the [Logger] behind an accepted configuration. *)
Lemma New_accepted (config : Config) (w w' : World) (l : ptr) :
  New config w = Returned (l, None) w' ->
  exists e,
    sink_of w' l = Some e
    /\ handle_of w' l = Some (mkLogger (addr (length (engines w))) "")
    /\ logrus.Fmt e = formatter_after config (logrus.TextFormatter false)
    /\ logrus.Lvl e = Level config
    /\ (Output config = ConsoleOutput \/ Output config = BothOutput
        \/ Output config = FileOutput).
Proof.
  intros H. unfold formatter_after.
  New_branches config w; inversion H; subst; clear H;
    eexists; (split; [apply sink_of_with_logger|]);
    (split; [apply handle_of_with_logger|]); simpl;
    by_output; auto.
Qed.

(** C3. When New accepts a configuration, the engine behind the returned
    logger has the text formatter with full timestamps if output is
    "console" or "both", and the JSON formatter if output is "file"; and
    output is one of the three. *)
Theorem New_formatter_by_output (config : Config) (w w' : World) (l : ptr) :
  New config w = Returned (l, None) w' ->
  exists e,
    sink_of w' l = Some e
    /\ (Output config = ConsoleOutput \/ Output config = BothOutput ->
        logrus.Fmt e = logrus.TextFormatter true)
    /\ (Output config = FileOutput -> logrus.Fmt e = logrus.JSONFormatter)
    /\ (Output config = ConsoleOutput \/ Output config = BothOutput
        \/ Output config = FileOutput).
Proof.
  intros H.
  destruct (New_accepted config w w' l H) as (e & He & _ & Hfmt & _ & Hout).
  exists e. split; [exact He|]. rewrite Hfmt. unfold formatter_after.
  split; [|split; [|exact Hout]].
  - intros Htext. by rewrite decide_True.
  - intros Hfile. rewrite decide_False, decide_True; [done..|].
    intros [Hc | Hb]; rewrite Hfile in *; discriminate.
Qed.

Lemma New_formatter_by_output_witness :
  exists e,
    sink_of (with_logger empty_world
               (logrus.mkLogger io.Stdout (logrus.TextFormatter true) DebugLevel) [])
            (addr 0) = Some e
    /\ (ConsoleOutput = ConsoleOutput \/ ConsoleOutput = BothOutput ->
        logrus.Fmt e = logrus.TextFormatter true)
    /\ (ConsoleOutput = FileOutput -> logrus.Fmt e = logrus.JSONFormatter)
    /\ (ConsoleOutput = ConsoleOutput \/ ConsoleOutput = BothOutput
        \/ ConsoleOutput = FileOutput).
Proof.
  apply (New_formatter_by_output (mkConfig DebugLevel ConsoleOutput "" "json") empty_world).
  reflexivity.
Defined.

(** C7. When New accepts a configuration, the level of the engine behind
    the returned logger is the configuration's level, and GetLevel on
    the returned logger returns it. *)
Theorem New_sets_level (config : Config) (w w' : World) (l : ptr) :
  New config w = Returned (l, None) w' ->
  (exists e, sink_of w' l = Some e /\ logrus.Lvl e = Level config)
  /\ GetLevel l w' = Returned (Level config) w'.
Proof.
  intros H.
  destruct (New_accepted config w w' l H) as (e & He & _ & _ & Hl & _).
  split; [by exists e|].
  by rewrite (GetLevel_live _ _ _ He), Hl.
Qed.

Lemma New_sets_level_witness :
  (exists e,
      sink_of (with_logger empty_world
                 (logrus.mkLogger io.Stdout (logrus.TextFormatter true) TraceLevel) [])
              (addr 0) = Some e
      /\ logrus.Lvl e = TraceLevel)
  /\ GetLevel (addr 0)
       (with_logger empty_world
          (logrus.mkLogger io.Stdout (logrus.TextFormatter true) TraceLevel) [])
     = Returned TraceLevel
         (with_logger empty_world
            (logrus.mkLogger io.Stdout (logrus.TextFormatter true) TraceLevel) []).
Proof.
  apply (New_sets_level (mkConfig TraceLevel ConsoleOutput "" "text") empty_world).
  reflexivity.
Defined.

(** C9. setupFormatter never returns an error: whatever it is given, a
    result it returns is nil, and on a live engine it does return, also
    for an output outside "console", "file", "both". So every error of
    New is the error setupOutput returned on New's engine, wrapped as
    "failed to setup output", and none is a "failed to setup formatter"
    error. *)
Theorem setupFormatter_returns_nil (config : Config) (w : World) :
  (forall lg r w', setupFormatter lg config w = Returned r w' -> r = None)
  /\ (forall a e, engines w !! a = Some e ->
      exists w', setupFormatter (addr a) config w = Returned None w')
  /\ (forall l err w', New config w = Returned (l, Some err) w' ->
      (exists err0,
          setupOutput (addr (length (engines w))) config
            (with_engine w (logrus.mkLogger io.Stderr
                              (formatter_after config (logrus.TextFormatter false))
                              (Level config)) (files w))
          = Returned (Some err0) w'
          /\ err = fmt_Errorf_w "failed to setup output: " err0)
      /\ forall err0, err ≠ fmt_Errorf_w "failed to setup formatter: " err0).
Proof.
  split; [|split].
  - intros lg r w' H. unfold setupFormatter in H; unfold_M.
    destruct (_ w) in H; by inversion H.
  - intros a e He. unfold setupFormatter, logrus_SetFormatter; unfold_M.
    repeat case_decide;
      rewrite ?(load_engine_live _ _ _ He), ?(store_engine_live _ _ e _ He); by eexists.
  - intros l err w' H. rewrite New_runs_setupOutput in H. unfold_M.
    match type of H with
    | context [setupOutput ?lg config ?w0] =>
        destruct (setupOutput lg config w0) as [[err0|] w1 | |] eqn:Hout
    end; try discriminate.
    inversion H; subst. split; [by eexists|].
    intros err1. unfold fmt_Errorf_w. intros [=].
Qed.

Lemma setupFormatter_returns_nil_witness :
  (exists w',
      setupFormatter (addr 0) (mkConfig InfoLevel "invalid" "" "text")
        (with_engine empty_world
           (logrus.mkLogger io.Stderr (logrus.TextFormatter false) InfoLevel) [])
      = Returned None w')
  /\ (exists err0,
         setupOutput (addr 0) (mkConfig InfoLevel "invalid" "" "text")
           (with_engine empty_world
              (logrus.mkLogger io.Stderr (logrus.TextFormatter false) InfoLevel) [])
         = Returned (Some err0)
             (with_engine empty_world
                (logrus.mkLogger io.Stderr (logrus.TextFormatter false) InfoLevel) [])
         /\ wrapError "failed to setup output: "
              (errorString "unsupported output type: invalid")
            = fmt_Errorf_w "failed to setup output: " err0).
Proof.
  split.
  - apply (setupFormatter_returns_nil (mkConfig InfoLevel "invalid" "" "text")
             (with_engine empty_world
                (logrus.mkLogger io.Stderr (logrus.TextFormatter false) InfoLevel) []))
      with (e := logrus.mkLogger io.Stderr (logrus.TextFormatter false) InfoLevel).
    reflexivity.
  - apply (setupFormatter_returns_nil (mkConfig InfoLevel "invalid" "" "text") empty_world)
      with (l := nil_ptr).
    reflexivity.
Defined.

(** C6. With output "both": a non-empty file_path whose file opens gives
    the engine standard output and that file; an empty file_path is
    accepted all the same, no file is opened and the engine writes to
    standard output only. *)
Theorem New_both_writers (config : Config) (w : World) :
  Output config = BothOutput ->
  (FilePath config ≠ "" -> open_errno w (FilePath config) = None ->
   exists l w' e,
     New config w = Returned (l, None) w'
     /\ sink_of w' l = Some e
     /\ io.targets (logrus.Out e) = [io.Stdout; io.File (length (files w))]
     /\ files w' = files w ++ [log_file config])
  /\ (FilePath config = "" ->
      exists l w' e,
        New config w = Returned (l, None) w'
        /\ sink_of w' l = Some e
        /\ io.targets (logrus.Out e) = [io.Stdout]
        /\ files w' = files w).
Proof.
  intros Ho. split.
  - intros Hp Hopen. rewrite (New_both config w Ho Hp Hopen).
    eexists _, _, _. split; [reflexivity|]. split; [apply sink_of_with_logger|]. done.
  - intros Hp. rewrite (New_both_no_path config w Ho Hp).
    eexists _, _, _. split; [reflexivity|]. split; [apply sink_of_with_logger|]. done.
Qed.

Lemma New_both_writers_witness :
  (exists l w' e,
      New (mkConfig InfoLevel BothOutput "/tmp/test.log" "text") empty_world
      = Returned (l, None) w'
      /\ sink_of w' l = Some e
      /\ io.targets (logrus.Out e) = [io.Stdout; io.File 0]
      /\ files w' = [log_file (mkConfig InfoLevel BothOutput "/tmp/test.log" "text")])
  /\ (exists l w' e,
         New (mkConfig InfoLevel BothOutput "" "text") empty_world = Returned (l, None) w'
         /\ sink_of w' l = Some e
         /\ io.targets (logrus.Out e) = [io.Stdout]
         /\ files w' = []).
Proof.
  split.
  - apply (New_both_writers (mkConfig InfoLevel BothOutput "/tmp/test.log" "text")
             empty_world); [reflexivity | discriminate | reflexivity].
  - apply (New_both_writers (mkConfig InfoLevel BothOutput "" "text") empty_world);
      reflexivity.
Defined.

(** The format field is never read: two configurations that differ in it
    only are built alike. *)
Lemma New_ignores_Format lv out path format1 format2 w :
  New (mkConfig lv out path format1) w = New (mkConfig lv out path format2) w.
Proof. reflexivity. Qed.

(** C2, as claimed, fails: a file-only configuration with format "text"
    is accepted and gets the JSON formatter. *)
Lemma file_output_does_not_honor_format :
  ~ (forall config w l w' e,
        Output config = FileOutput -> FilePath config ≠ "" ->
        New config w = Returned (l, None) w' -> sink_of w' l = Some e ->
        honors_format config (logrus.Fmt e)).
Proof.
  intros H.
  destruct (H (mkConfig InfoLevel FileOutput "/tmp/test.log" "text") empty_world
              (addr 0) _ _ eq_refl ltac:(discriminate) eq_refl eq_refl) as [_ Htext].
  destruct (Htext eq_refl) as [full Hfull]. discriminate Hfull.
Qed.

(** C2, amended. When New accepts a configuration with output "file" and
    a non-empty file_path, the engine behind the returned logger has the
    JSON formatter whatever the format field says: New gives the same
    result for every value of format. *)
Theorem file_output_is_JSON_whatever_format (config : Config) (w w' : World) (l : ptr) :
  Output config = FileOutput -> FilePath config ≠ "" ->
  New config w = Returned (l, None) w' ->
  (exists e, sink_of w' l = Some e /\ logrus.Fmt e = logrus.JSONFormatter)
  /\ forall format,
      New (mkConfig (Level config) (Output config) (FilePath config) format) w
      = Returned (l, None) w'.
Proof.
  intros Ho Hp H. split.
  - destruct (New_accepted config w w' l H) as (e & He & _ & Hfmt & _).
    exists e. split; [exact He|]. rewrite Hfmt. unfold formatter_after.
    rewrite decide_False, decide_True; [done..|].
    intros [Hc | Hb]; rewrite Ho in *; discriminate.
  - intros format. rewrite <- H. destruct config. apply New_ignores_Format.
Qed.

Lemma file_output_is_JSON_whatever_format_witness :
  (exists e,
      sink_of (with_logger empty_world
                 (logrus.mkLogger (io.File 0) logrus.JSONFormatter InfoLevel)
                 [log_file (mkConfig InfoLevel FileOutput "/tmp/test.log" "text")])
              (addr 0) = Some e
      /\ logrus.Fmt e = logrus.JSONFormatter)
  /\ forall format,
      New (mkConfig InfoLevel FileOutput "/tmp/test.log" format) empty_world
      = Returned (addr 0, None)
          (with_logger empty_world
             (logrus.mkLogger (io.File 0) logrus.JSONFormatter InfoLevel)
             [log_file (mkConfig InfoLevel FileOutput "/tmp/test.log" "text")]).
Proof.
  apply (file_output_is_JSON_whatever_format
           (mkConfig InfoLevel FileOutput "/tmp/test.log" "text") empty_world);
    [reflexivity | discriminate | reflexivity].
Defined.

(** ** The handle *)

Lemma alloc_Logger_spec w x :
  exists l w',
    alloc_Logger x w = Returned l w'
    /\ handle_of w' l = Some x /\ handle_of w l = None /\ only_allocates w w'.
Proof.
  eexists _, _. split; [reflexivity|]. unfold set_handles; simpl.
  split; [by rewrite list_lookup_middle|].
  split; [apply lookup_ge_None_2; lia|].
  repeat split; try done.
  intros [|a] self; [done|]. simpl. intros H. by apply lookup_app_l_Some.
Qed.

Lemma WithService_spec w l self name :
  handle_of w l = Some self ->
  exists l' w',
    WithService l name w = Returned l' w'
    /\ handle_of w' l' = Some (mkLogger (logger self) name)
    /\ handle_of w l' = None /\ only_allocates w w'.
Proof.
  intros H. unfold WithService; unfold_M. rewrite (load_Logger_live _ _ _ H).
  apply alloc_Logger_spec.
Qed.

Lemma WithGroup_spec w l self group :
  handle_of w l = Some self ->
  exists l' w',
    WithGroup l group w = Returned l' w'
    /\ handle_of w' l'
       = Some (mkLogger (logger self)
                 (if decide (serviceName self ≠ "")
                  then serviceName self +:+ "." +:+ group else group))
    /\ handle_of w l' = None /\ only_allocates w w'.
Proof.
  intros H. unfold WithGroup; unfold_M. rewrite (load_Logger_live _ _ _ H).
  apply alloc_Logger_spec.
Qed.

(** C4. On a logger [l]: WithService(s) then WithGroup(g) gives a logger
    named s.g when s is not empty; WithGroup(g) on a logger with an
    empty name gives the name g; and each of the two operations returns
    a [Logger] that did not exist before, on the engine of [l], leaving
    [l] and everything else as it was. *)
Theorem WithService_WithGroup_name (w : World) (l : ptr) (self : Logger) (s g : string) :
  handle_of w l = Some self ->
  (s ≠ "" ->
   exists l1 w1 l2 w2,
     WithService l s w = Returned l1 w1 /\ WithGroup l1 g w1 = Returned l2 w2
     /\ handle_of w2 l2 = Some (mkLogger (logger self) (s +:+ "." +:+ g)))
  /\ (serviceName self = "" ->
      exists l' w',
        WithGroup l g w = Returned l' w'
        /\ handle_of w' l' = Some (mkLogger (logger self) g))
  /\ (exists l' w' self',
        WithService l s w = Returned l' w'
        /\ handle_of w' l' = Some self' /\ logger self' = logger self
        /\ handle_of w l' = None /\ l' ≠ l
        /\ handle_of w' l = Some self /\ only_allocates w w')
  /\ (exists l' w' self',
        WithGroup l g w = Returned l' w'
        /\ handle_of w' l' = Some self' /\ logger self' = logger self
        /\ handle_of w l' = None /\ l' ≠ l
        /\ handle_of w' l = Some self /\ only_allocates w w').
Proof.
  intros H.
  destruct (WithService_spec w l self s H) as (l1 & w1 & Hs & Hl1 & Hfresh1 & Hpure1).
  destruct (WithGroup_spec w l self g H) as (l2 & w2 & Hg & Hl2 & Hfresh2 & Hpure2).
  split; [|split; [|split]].
  - intros Hne.
    destruct (WithGroup_spec w1 l1 _ g Hl1) as (l3 & w3 & Hg3 & Hl3 & _).
    exists l1, w1, l3, w3. split; [done|]. split; [done|].
    rewrite Hl3. simpl. by rewrite decide_True.
  - intros Hempty. exists l2, w2. split; [done|].
    rewrite Hl2, Hempty. by rewrite decide_False by (intros Hn; by apply Hn).
  - exists l1, w1, (mkLogger (logger self) s).
    split; [done|]. split; [done|]. split; [done|]. split; [done|].
    split; [intros ->; congruence|]. split; [by apply Hpure1 | done].
  - eexists l2, w2, _.
    split; [done|]. split; [exact Hl2|]. split; [done|]. split; [done|].
    split; [intros ->; congruence|]. split; [by apply Hpure2 | done].
Qed.

Lemma WithService_WithGroup_name_witness :
  exists l1 w1 l2 w2,
    WithService (addr 0) "svc"
      (with_logger empty_world
         (logrus.mkLogger io.Stdout (logrus.TextFormatter true) DebugLevel) [])
    = Returned l1 w1
    /\ WithGroup l1 "sub" w1 = Returned l2 w2
    /\ handle_of w2 l2 = Some (mkLogger (addr 0) "svc.sub").
Proof.
  destruct (WithService_WithGroup_name
              (with_logger empty_world
                 (logrus.mkLogger io.Stdout (logrus.TextFormatter true) DebugLevel) [])
              (addr 0) (mkLogger (addr 0) "") "svc" "sub" eq_refl) as [Hname _].
  apply Hname. discriminate.
Defined.

Lemma sink_of_handle w l self a :
  handle_of w l = Some self -> logger self = addr a -> sink_of w l = engines w !! a.
Proof.
  destruct l as [|p]; [done|]. simpl. intros -> Hlg. by rewrite Hlg.
Qed.

Lemma sink_of_only_allocates w w' l e :
  only_allocates w w' -> sink_of w l = Some e -> sink_of w' l = Some e.
Proof.
  intros (Heng & _ & _ & _ & Hkeep) (self & a & Hself & Hlg & He)%sink_of_live.
  rewrite (sink_of_handle w' l self a (Hkeep _ _ Hself) Hlg). by rewrite Heng.
Qed.

(** SetLevel through one handle, GetLevel through another on the same
    engine. *)
Lemma SetLevel_GetLevel_shared w l1 l2 h1 h2 e level :
  handle_of w l1 = Some h1 -> handle_of w l2 = Some h2 ->
  logger h1 = logger h2 -> sink_of w l1 = Some e ->
  exists w',
    SetLevel l1 level w = Returned tt w'
    /\ GetLevel l1 w' = Returned level w'
    /\ GetLevel l2 w' = Returned level w'.
Proof.
  intros H1 H2 Hsame (self & a & Hself & Hlg & He)%sink_of_live.
  assert (self = h1) as -> by congruence.
  eexists. split.
  - unfold SetLevel, logrus_SetLevel; unfold_M.
    rewrite (load_Logger_live _ _ _ H1), Hlg.
    rewrite (load_engine_live _ _ _ He). apply (store_engine_live _ _ e _ He).
  - pose proof (lookup_lt_Some _ _ _ He) as Hlt.
    split; apply (GetLevel_live _ _ (logrus.mkLogger (logrus.Out e) (logrus.Fmt e) level)).
    + rewrite (sink_of_handle _ l1 h1 a); [|by destruct l1|done].
      simpl. by apply list_lookup_insert_eq.
    + rewrite (sink_of_handle _ l2 h2 a); [|by destruct l2|congruence].
      simpl. by apply list_lookup_insert_eq.
Qed.

(** C5. If two loggers have the same engine, SetLevel(X) through one
    makes GetLevel through either return X. A logger and the loggers
    WithService and WithGroup derive from it are such pairs, in both
    directions. *)
Theorem SetLevel_visible_through_shared_sink
    (w : World) (l1 l2 : ptr) (h1 h2 : Logger) (e : logrus.Logger) (X : logrus.Level) :
  handle_of w l1 = Some h1 -> handle_of w l2 = Some h2 ->
  logger h1 = logger h2 -> sink_of w l1 = Some e ->
  (exists w',
      SetLevel l1 X w = Returned tt w'
      /\ GetLevel l1 w' = Returned X w' /\ GetLevel l2 w' = Returned X w')
  /\ (forall name, exists l' w1 w',
        WithService l1 name w = Returned l' w1
        /\ SetLevel l' X w1 = Returned tt w'
        /\ GetLevel l1 w' = Returned X w' /\ GetLevel l' w' = Returned X w')
  /\ (forall group, exists l' w1 w',
        WithGroup l1 group w = Returned l' w1
        /\ SetLevel l1 X w1 = Returned tt w'
        /\ GetLevel l1 w' = Returned X w' /\ GetLevel l' w' = Returned X w').
Proof.
  intros H1 H2 Hsame He. split; [|split].
  - by apply (SetLevel_GetLevel_shared w l1 l2 h1 h2 e).
  - intros name.
    destruct (WithService_spec w l1 h1 name H1) as (l' & w1 & Hs & Hl' & _ & Hpure).
    pose proof Hpure as (_ & _ & _ & _ & Hkeep).
    destruct (sink_of_live _ _ _ He) as (self & a & Hself & Hlg & Ha).
    assert (self = h1) as -> by congruence.
    assert (sink_of w1 l' = Some e) as He'.
    { rewrite (sink_of_handle _ _ _ a Hl' Hlg). destruct Hpure as [-> _]. done. }
    destruct (SetLevel_GetLevel_shared w1 l' l1 _ h1 e X Hl' (Hkeep _ _ H1) eq_refl He')
      as (w' & Hset & Hg' & Hg1).
    by exists l', w1, w'.
  - intros group.
    destruct (WithGroup_spec w l1 h1 group H1) as (l' & w1 & Hs & Hl' & _ & Hpure).
    pose proof Hpure as (_ & _ & _ & _ & Hkeep).
    destruct (SetLevel_GetLevel_shared w1 l1 l' h1 _ e X (Hkeep _ _ H1) Hl' eq_refl
                (sink_of_only_allocates _ _ _ _ Hpure He))
      as (w' & Hset & Hg1 & Hg').
    by exists l', w1, w'.
Qed.

Lemma SetLevel_visible_through_shared_sink_witness :
  exists w',
    SetLevel (addr 2) WarnLevel
      (mkWorld [logrus.mkLogger io.Stdout (logrus.TextFormatter true) DebugLevel]
               [mkLogger (addr 0) ""; mkLogger (addr 0) "svc"; mkLogger (addr 0) "svc.sub"]
               [] [] (fun _ => None))
    = Returned tt w'
    /\ GetLevel (addr 2) w' = Returned WarnLevel w'
    /\ GetLevel (addr 0) w' = Returned WarnLevel w'.
Proof.
  destruct (SetLevel_visible_through_shared_sink
              (mkWorld [logrus.mkLogger io.Stdout (logrus.TextFormatter true) DebugLevel]
                       [mkLogger (addr 0) ""; mkLogger (addr 0) "svc";
                        mkLogger (addr 0) "svc.sub"]
                       [] [] (fun _ => None))
              (addr 2) (addr 0) (mkLogger (addr 0) "svc.sub") (mkLogger (addr 0) "")
              (logrus.mkLogger io.Stdout (logrus.TextFormatter true) DebugLevel)
              WarnLevel eq_refl eq_refl eq_refl eq_refl) as [Hshared _].
  exact Hshared.
Defined.

(** ** Entries *)

Ltac unfold_calls :=
  unfold run_call, Debug, Debugf, Info, Infof, Warn, Warnf, Error, Errorf,
    Fatal, Fatalf, Panic, Panicf,
    Entry_Debug, Entry_Debugf, Entry_Info, Entry_Infof, Entry_Warn, Entry_Warnf,
    Entry_Error, Entry_Errorf, Entry_Fatal, Entry_Fatalf, Entry_Panic, Entry_Panicf,
    Entry_Log, withFields, logrus_WithFields, write_line, exit, panic.

Lemma withFields_live w l self eng stack :
  handle_of w l = Some self -> sink_of w l = Some eng ->
  withFields l stack w
  = Returned (logrus.mkEntry (logger self)
                (base_fields (serviceName self) (own_frame "withFields" :: stack))) w.
Proof.
  intros Hself (self' & a & Hself' & Hlg & Ha)%sink_of_live.
  assert (self' = self) as -> by congruence.
  unfold withFields, logrus_WithFields; unfold_M.
  rewrite (load_Logger_live _ _ _ Hself), Hlg.
  by rewrite (load_engine_live _ _ _ Ha).
Qed.

(** A call on a live logger, step by step: the line it writes if its
    level is enabled, and how it ends. *)
Lemma run_call_live w l self eng c stack :
  handle_of w l = Some self -> sink_of w l = Some eng ->
  let data := base_fields (serviceName self)
                (own_frame "withFields" :: own_frame (method_of c) :: stack) in
  let e := logrus.mkEntry (logger self) data in
  let ln := logrus.mkLine (level_of c) (message_of c) data (logrus.Fmt eng) (logrus.Out eng) in
  run_call c l stack w
  = if (level_of c <=? logrus.Lvl eng)%N then
      let w' := set_written (fun ls => ls ++ [ln]) w in
      if (level_of c <=? logrus.PanicLevel)%N then Panicked (EntryPanic e) w'
      else if (level_of c =? logrus.FatalLevel)%N then Exited 1 w'
      else Returned tt w'
    else if (level_of c =? logrus.FatalLevel)%N then Exited 1 w
    else Returned tt w.
Proof.
  intros Hself Heng. simpl.
  destruct (sink_of_live _ _ _ Heng) as (self' & a & Hself' & Hlg & Ha).
  assert (self' = self) as -> by congruence.
  destruct c; unfold_calls; unfold_M;
    rewrite (load_Logger_live _ _ _ Hself), Hlg, (load_engine_live _ _ _ Ha);
    cbn [logrus.entry_Logger logrus.Data];
    rewrite (load_engine_live _ _ _ Ha);
    cbn [level_of message_of method_of];
    destruct (N.leb _ (logrus.Lvl eng)); reflexivity.
Qed.

(** How a call ends does not depend on the call stack. *)
Lemma run_call_kind c l stack1 stack2 w :
  kind_of (run_call c l stack1 w) = kind_of (run_call c l stack2 w).
Proof.
  destruct l as [|p]; [by destruct c|].
  destruct (handles w !! p) as [self|] eqn:Hself.
  - destruct (logger self) as [|a] eqn:Hlg.
    + destruct c; unfold_calls; unfold load_Logger, load_engine, deref; unfold_M;
        by rewrite Hself, Hlg.
    + destruct (engines w !! a) as [eng|] eqn:Ha.
      * assert (sink_of w (addr p) = Some eng) as Heng.
        { by rewrite (sink_of_handle _ _ self a). }
        rewrite !(run_call_live w (addr p) self eng c _ Hself Heng).
        by repeat case_match.
      * destruct c; unfold_calls; unfold load_Logger, load_engine, deref; unfold_M;
          by rewrite Hself, Hlg, Ha.
  - destruct c; unfold_calls; unfold load_Logger, deref; unfold_M; by rewrite Hself.
Qed.

Lemma base_fields_service name stack :
  base_fields name stack !! "service" = Some (VString name).
Proof.
  unfold base_fields.
  destruct (runtime_Caller 2 stack) as [pc|]; [|by rewrite lookup_insert_eq].
  rewrite lookup_insert_ne by done.
  destruct (runtime_FuncForPC pc); [rewrite lookup_insert_ne by done|];
    by rewrite lookup_insert_eq.
Qed.

Lemma base_fields_no_frame name self_frame wrapper :
  base_fields name [self_frame; wrapper] = {[ "service" := VString name ]}.
Proof. reflexivity. Qed.

Lemma base_fields_frame name self_frame wrapper site rest fn :
  frame_func site = Some fn ->
  base_fields name (self_frame :: wrapper :: site :: rest)
  = <["file" := VString (filepath_Base (frame_file site) +:+ ":" +:+ pretty (frame_line site))]>
      (<["func" := VString fn]> {[ "service" := VString name ]}).
Proof. intros H. unfold base_fields, runtime_Caller, runtime_FuncForPC. simpl. by rewrite H. Qed.

(** A frame the runtime cannot name: the file is recorded, the function
    is not. *)
Lemma base_fields_unnamed_frame name self_frame wrapper site rest :
  frame_func site = None ->
  base_fields name (self_frame :: wrapper :: site :: rest)
  = <["file" := VString (filepath_Base (frame_file site) +:+ ":" +:+ pretty (frame_line site))]>
      {[ "service" := VString name ]}.
Proof. intros H. unfold base_fields, runtime_Caller, runtime_FuncForPC. simpl. by rewrite H. Qed.

(** The base fields, key by key, when the call site is known. *)
Lemma base_fields_lookup name self_frame wrapper site rest k :
  base_fields name (self_frame :: wrapper :: site :: rest) !! k
  = if decide (k = "file") then
      Some (VString (filepath_Base (frame_file site) +:+ ":" +:+ pretty (frame_line site)))
    else if decide (k = "func") then VString <$> frame_func site
    else if decide (k = "service") then Some (VString name)
    else None.
Proof.
  unfold base_fields, runtime_Caller, runtime_FuncForPC. cbn [lookup list_lookup].
  destruct (frame_func site) as [fn|]; simpl;
    rewrite !lookup_insert, lookup_empty; repeat case_decide; congruence.
Qed.

Lemma run_call_emitted w l self eng c stack :
  handle_of w l = Some self -> sink_of w l = Some eng ->
  emitted w (run_call c l stack w)
  = if (level_of c <=? logrus.Lvl eng)%N then
      [logrus.mkLine (level_of c) (message_of c)
         (base_fields (serviceName self)
            (own_frame "withFields" :: own_frame (method_of c) :: stack))
         (logrus.Fmt eng) (logrus.Out eng)]
    else [].
Proof.
  intros Hself Heng. unfold emitted.
  rewrite (run_call_live w l self eng c stack Hself Heng). cbv zeta.
  destruct (N.leb _ (logrus.Lvl eng));
    repeat case_match; unfold set_written; simpl;
    by rewrite ?drop_app_length, ?drop_all.
Qed.

Lemma Entry_Log_live w a eng data level msg :
  engines w !! a = Some eng ->
  Entry_Log (logrus.mkEntry (addr a) data) level msg w
  = if (level <=? logrus.Lvl eng)%N then
      let w' := set_written
                  (fun ls => ls ++ [logrus.mkLine level msg data (logrus.Fmt eng)
                                      (logrus.Out eng)]) w in
      if (level <=? logrus.PanicLevel)%N
      then Panicked (EntryPanic (logrus.mkEntry (addr a) data)) w'
      else Returned tt w'
    else Returned tt w.
Proof.
  intros Ha. unfold Entry_Log, write_line, panic; unfold_M. cbn [logrus.entry_Logger].
  rewrite (load_engine_live _ _ _ Ha). cbn [logrus.Data].
  destruct (N.leb level (logrus.Lvl eng)); [|reflexivity].
  cbv zeta. by destruct (N.leb level logrus.PanicLevel).
Qed.

Lemma entry_call_emitted w a eng e c :
  logrus.entry_Logger e = addr a -> engines w !! a = Some eng ->
  emitted w (entry_call c e w)
  = if (level_of c <=? logrus.Lvl eng)%N then
      [logrus.mkLine (level_of c) (message_of c) (logrus.Data e)
         (logrus.Fmt eng) (logrus.Out eng)]
    else [].
Proof.
  destruct e as [lg data]. simpl. intros -> Ha. unfold emitted.
  destruct c;
    unfold entry_call, Entry_Debug, Entry_Debugf, Entry_Info, Entry_Infof, Entry_Warn,
      Entry_Warnf, Entry_Error, Entry_Errorf, Entry_Fatal, Entry_Fatalf, Entry_Panic,
      Entry_Panicf, exit; unfold_M;
    rewrite (Entry_Log_live w a eng _ _ _ Ha); cbn [level_of message_of];
    destruct (N.leb _ (logrus.Lvl eng)); cbv zeta; unfold set_written; simpl;
    by rewrite ?drop_app_length, ?drop_all.
Qed.

(** C8, as claimed, fails. The frame of the caller is available but the
    runtime cannot name its function: the line of the log call has
    "file" and no "func". *)
Lemma unnamed_frame_omits_func :
  ~ (forall w l self eng c site rest ln,
        handle_of w l = Some self -> sink_of w l = Some eng ->
        ln ∈ emitted w (run_call c l (site :: rest) w) ->
        is_Some (logrus.line_data ln !! "func")
        /\ is_Some (logrus.line_data ln !! "file")).
Proof.
  intros H.
  assert (ln_in : logrus.mkLine InfoLevel (logrus.Sprint [VString "x"])
                    (base_fields "svc"
                       [own_frame "withFields"; own_frame "Info"; unnamed_site])
                    (logrus.TextFormatter true) io.Stdout
                  ∈ emitted svc_world
                      (run_call (CallInfo [VString "x"]) (addr 1) [unnamed_site] svc_world)).
  { rewrite (run_call_emitted svc_world (addr 1) (mkLogger (addr 0) "svc")
               (logrus.mkLogger io.Stdout (logrus.TextFormatter true) InfoLevel)
               _ _ eq_refl eq_refl).
    simpl. apply list_elem_of_singleton. reflexivity. }
  destruct (H svc_world (addr 1) (mkLogger (addr 0) "svc")
              (logrus.mkLogger io.Stdout (logrus.TextFormatter true) InfoLevel)
              (CallInfo [VString "x"]) unnamed_site [] _ eq_refl eq_refl ln_in)
    as [[v Hfunc] _].
  cbn [logrus.line_data] in Hfunc.
  rewrite base_fields_lookup in Hfunc. discriminate Hfunc.
Qed.

(** C8, amended. On a live logger, for each of the twelve log calls made
    from the application stack [stack]: the call emits, when its level
    is enabled, exactly one line, and the fields of that line (they are
    those of the entry withFields returns) depend on the caller's frame
    as follows. With no frame above the forwarding method
    (runtime.Caller fails) there is neither "func" nor "file". With the
    call site [site] on top there is "file", the basename of the site's
    file, a colon and the line, and there is "func", the function's
    name, exactly when the runtime can name the function of that frame;
    when it cannot, "func" alone is left out. No log call ends
    differently because the frame is missing, and the calls below fatal
    return. *)
Theorem log_call_caller_metadata
    (w : World) (l : ptr) (self : Logger) (eng : logrus.Logger)
    (c : LogCall) (stack : list Frame) :
  handle_of w l = Some self -> sink_of w l = Some eng ->
  (exists data,
      withFields l (own_frame (method_of c) :: stack) w
      = Returned (logrus.mkEntry (logger self) data) w
      /\ emitted w (run_call c l stack w)
         = (if (level_of c <=? logrus.Lvl eng)%N then
              [logrus.mkLine (level_of c) (message_of c) data
                 (logrus.Fmt eng) (logrus.Out eng)]
            else [])
      /\ (stack = [] -> data !! "func" = None /\ data !! "file" = None)
      /\ (forall site rest,
            stack = site :: rest ->
            data !! "file"
            = Some (VString (filepath_Base (frame_file site) +:+ ":"
                             +:+ pretty (frame_line site)))
            /\ data !! "func" = VString <$> frame_func site))
  /\ kind_of (run_call c l [] w) = kind_of (run_call c l stack w)
  /\ (ends_process c = false -> exists w', run_call c l [] w = Returned tt w').
Proof.
  intros Hself Heng. split; [|split].
  - eexists. split; [by apply (withFields_live w l self eng)|].
    split; [apply (run_call_emitted w l self eng c stack Hself Heng)|].
    split.
    + intros ->. by rewrite base_fields_no_frame.
    + intros site rest ->. by rewrite !base_fields_lookup.
  - apply run_call_kind.
  - intros Hc. rewrite (run_call_live w l self eng c [] Hself Heng).
    cbv zeta. destruct c; try discriminate Hc; cbn [level_of];
      destruct (N.leb _ (logrus.Lvl eng)); by eexists.
Qed.

Lemma log_call_caller_metadata_witness :
  exists data,
    emitted svc_world (run_call (CallWarn [VString "slow"]) (addr 1) [unnamed_site] svc_world)
    = [logrus.mkLine WarnLevel (logrus.Sprint [VString "slow"]) data
         (logrus.TextFormatter true) io.Stdout]
    /\ data !! "file" = Some (VString "x.go:7")
    /\ data !! "func" = None.
Proof.
  destruct (log_call_caller_metadata svc_world (addr 1) (mkLogger (addr 0) "svc")
              (logrus.mkLogger io.Stdout (logrus.TextFormatter true) InfoLevel)
              (CallWarn [VString "slow"]) [unnamed_site] eq_refl eq_refl)
    as [(data & _ & Hline & _ & Hsite) _].
  exists data. split; [exact Hline|]. apply (Hsite unnamed_site [] eq_refl).
Defined.

(** C10, as claimed, fails. A logger named "svc" is asked for an entry
    with the field "service" set to "other"; the line logged through the
    entry carries "other", not the logger's name. *)
Lemma WithField_service_replaces_name :
  ~ (forall w l self eng key v stack e c ln,
        handle_of w l = Some self -> sink_of w l = Some eng ->
        WithField l key v stack w = Returned e w ->
        ln ∈ emitted w (entry_call c e w) ->
        logrus.line_data ln !! "service" = Some (VString (serviceName self))).
Proof.
  intros H.
  assert (ln_in : logrus.mkLine InfoLevel (logrus.Sprint [VString "x"])
                    ({[ "service" := VString "other" ]}
                       ∪ base_fields "svc"
                           (own_frame "withFields" :: own_frame "WithField" :: app_stack))
                    (logrus.TextFormatter true) io.Stdout
                  ∈ emitted svc_world
                      (entry_call (CallInfo [VString "x"])
                         (logrus.mkEntry (addr 0)
                            ({[ "service" := VString "other" ]}
                               ∪ base_fields "svc"
                                   (own_frame "withFields" :: own_frame "WithField"
                                    :: app_stack)))
                         svc_world)).
  { rewrite (entry_call_emitted svc_world 0
               (logrus.mkLogger io.Stdout (logrus.TextFormatter true) InfoLevel)
               (logrus.mkEntry (addr 0) _) _ eq_refl eq_refl).
    simpl. apply list_elem_of_singleton. reflexivity. }
  pose proof (H svc_world (addr 1) (mkLogger (addr 0) "svc")
                (logrus.mkLogger io.Stdout (logrus.TextFormatter true) InfoLevel)
                "service" (VString "other") app_stack _ (CallInfo [VString "x"]) _
                eq_refl eq_refl eq_refl ln_in) as Hservice.
  cbn [logrus.line_data serviceName] in Hservice.
  rewrite (lookup_union_Some_l _ _ _ (VString "other")) in Hservice
    by (by rewrite lookup_singleton_eq).
  discriminate Hservice.
Qed.

(** C10, amended. The logger New returns has the empty service name.
    Every line a log method (Debug to Panicf) of a live logger emits
    carries the field "service" with that logger's service name, and a
    call whose level is enabled emits exactly one line; so the lines of
    a logger fresh from New carry "service" with the empty string. An
    entry built by WithField, WithFields or WithError carries "service"
    too, with the logger's service name unless the caller gives the key
    "service" itself, whose value then takes its place; and the lines
    logged through an entry carry the entry's fields. *)
Theorem service_field_unless_overridden :
  (forall config w l w',
      New config w = Returned (l, None) w' ->
      handle_of w' l = Some (mkLogger (addr (length (engines w))) ""))
  /\ (forall w l self eng c stack,
        handle_of w l = Some self -> sink_of w l = Some eng ->
        (forall ln, ln ∈ emitted w (run_call c l stack w) ->
                    logrus.line_data ln !! "service" = Some (VString (serviceName self)))
        /\ ((level_of c <=? logrus.Lvl eng)%N = true ->
            exists ln, emitted w (run_call c l stack w) = [ln]))
  /\ (forall config w l w' c stack ln,
        New config w = Returned (l, None) w' ->
        ln ∈ emitted w' (run_call c l stack w') ->
        logrus.line_data ln !! "service" = Some (VString ""))
  /\ (forall w l self eng stack,
        handle_of w l = Some self -> sink_of w l = Some eng ->
        (forall fields, exists e,
              WithFields l fields stack w = Returned e w
              /\ logrus.entry_Logger e = logger self
              /\ logrus.Data e !! "service"
                 = match fields !! "service" with
                   | Some v => Some v
                   | None => Some (VString (serviceName self))
                   end)
        /\ (forall key v, exists e,
                WithField l key v stack w = Returned e w
                /\ logrus.entry_Logger e = logger self
                /\ logrus.Data e !! "service"
                   = if decide (key = "service") then Some v
                     else Some (VString (serviceName self)))
        /\ (forall err, exists e,
                WithError l err stack w = Returned e w
                /\ logrus.entry_Logger e = logger self
                /\ logrus.Data e !! "service" = Some (VString (serviceName self))))
  /\ (forall w e a eng c,
        logrus.entry_Logger e = addr a -> engines w !! a = Some eng ->
        (forall ln, ln ∈ emitted w (entry_call c e w) ->
                    logrus.line_data ln = logrus.Data e)
        /\ ((level_of c <=? logrus.Lvl eng)%N = true ->
            exists ln, emitted w (entry_call c e w) = [ln])).
Proof.
  assert (forall config w l w',
             New config w = Returned (l, None) w' ->
             handle_of w' l = Some (mkLogger (addr (length (engines w))) "")) as Hnew.
  { intros config w l w' H.
    by destruct (New_accepted config w w' l H) as (_ & _ & Hl & _). }
  assert (forall w l self eng c stack,
             handle_of w l = Some self -> sink_of w l = Some eng ->
             forall ln, ln ∈ emitted w (run_call c l stack w) ->
                        logrus.line_data ln !! "service"
                        = Some (VString (serviceName self))) as Hline.
  { intros w l self eng c stack Hself Heng ln.
    rewrite (run_call_emitted w l self eng c stack Hself Heng).
    destruct (N.leb _ _); [|by intros ?%elem_of_nil].
    intros ->%list_elem_of_singleton. apply base_fields_service. }
  split; [exact Hnew|]. split; [|split; [|split]].
  - intros w l self eng c stack Hself Heng. split; [by apply (Hline w l self eng)|].
    intros Hen. rewrite (run_call_emitted w l self eng c stack Hself Heng), Hen.
    by eexists.
  - intros config w l w' c stack ln H Hln.
    destruct (New_accepted config w w' l H) as (eng & Heng & _).
    apply (Hline w' l _ eng c stack (Hnew _ _ _ _ H) Heng ln Hln).
  - intros w l self eng stack Hself Heng.
    split; [|split].
    + intros fields. unfold WithFields; unfold_M.
      rewrite (withFields_live w l self eng _ Hself Heng).
      eexists. split; [reflexivity|]. split; [reflexivity|].
      unfold Entry_WithFields; cbn [logrus.Data].
      destruct (fields !! "service") as [v|] eqn:Hf.
      * by apply lookup_union_Some_l.
      * rewrite lookup_union_r by done. apply base_fields_service.
    + intros key v. unfold WithField; unfold_M.
      rewrite (withFields_live w l self eng _ Hself Heng).
      eexists. split; [reflexivity|]. split; [reflexivity|].
      unfold Entry_WithField, Entry_WithFields; cbn [logrus.Data].
      case_decide as Hk.
      * subst key. apply lookup_union_Some_l. by rewrite lookup_singleton_eq.
      * rewrite lookup_union_r by (by rewrite lookup_singleton_ne).
        apply base_fields_service.
    + intros err. unfold WithError; unfold_M.
      rewrite (withFields_live w l self eng _ Hself Heng).
      eexists. split; [reflexivity|]. split; [reflexivity|].
      unfold Entry_WithError, Entry_WithField, Entry_WithFields; cbn [logrus.Data].
      rewrite lookup_union_r by (by rewrite lookup_singleton_ne).
      apply base_fields_service.
  - intros w e a eng c He Ha. rewrite (entry_call_emitted w a eng e c He Ha). split.
    + intros ln. destruct (N.leb _ _); [|by intros ?%elem_of_nil].
      by intros ->%list_elem_of_singleton.
    + intros ->. by eexists.
Qed.

Lemma service_field_unless_overridden_witness :
  (exists e,
      WithField (addr 1) "user_id" (VString "12345") app_stack svc_world = Returned e svc_world
      /\ logrus.entry_Logger e = addr 0
      /\ logrus.Data e !! "service" = Some (VString "svc"))
  /\ exists ln,
      emitted svc_world (run_call (CallInfo [VString "Service started"]) (addr 0)
                           app_stack svc_world) = [ln].
Proof.
  destruct service_field_unless_overridden as (_ & Hcall & _ & Hbuild & _).
  split.
  - destruct (Hbuild svc_world (addr 1) (mkLogger (addr 0) "svc")
                (logrus.mkLogger io.Stdout (logrus.TextFormatter true) InfoLevel)
                app_stack eq_refl eq_refl) as (_ & Hfield & _).
    apply (Hfield "user_id" (VString "12345")).
  - apply (Hcall svc_world (addr 0) (mkLogger (addr 0) "")
             (logrus.mkLogger io.Stdout (logrus.TextFormatter true) InfoLevel));
      reflexivity.
Defined.

(** The builders add the caller's fields over the base fields: a key
    other than "service" leaves the service name in place. *)
Lemma WithField_keeps_service w l self eng key v stack :
  handle_of w l = Some self -> sink_of w l = Some eng -> key ≠ "service" ->
  exists e,
    WithField l key v stack w = Returned e w
    /\ logrus.Data e !! "service" = Some (VString (serviceName self))
    /\ logrus.Data e !! key = Some v.
Proof.
  intros Hself Heng Hkey. unfold WithField; unfold_M.
  rewrite (withFields_live w l self eng _ Hself Heng).
  eexists. split; [reflexivity|]. unfold Entry_WithField, Entry_WithFields; simpl.
  split.
  - rewrite lookup_union_r by (by rewrite lookup_singleton_ne).
    apply base_fields_service.
  - apply lookup_union_Some_l. by rewrite lookup_singleton_eq.
Qed.

(** ** Further properties of the builder *)

(** New always returns: no configuration and no world make it panic or
    leave the process (the index [writers[0]] is never out of range).
    Exactly one of the two results is nil: with an error the logger is
    nil and neither a [Logger] nor a file has been added; without one the
    logger is the [Logger] allocated last. *)
Theorem New_always_returns (config : Config) (w : World) :
  exists l err w',
    New config w = Returned (l, err) w'
    /\ ((l = nil_ptr /\ (exists e, err = Some e)
         /\ handles w' = handles w /\ files w' = files w)
        \/ (l = addr (length (handles w)) /\ err = None
            /\ handle_of w l = None
            /\ handle_of w' l = Some (mkLogger (addr (length (engines w))) ""))).
Proof.
  New_branches config w; eexists _, _, _; (split; [reflexivity|]);
    first [ by left; repeat split; eauto
          | right; repeat split; try done;
            [ simpl; apply lookup_ge_None_2; lia | apply handle_of_with_logger ] ].
Qed.

(** New accepts a configuration exactly when output is "console", or
    "file" with a non-empty path that opens, or "both" with an empty path
    or a path that opens. *)
Theorem New_accepts_iff (config : Config) (w : World) :
  (exists l w', New config w = Returned (l, None) w')
  <-> (Output config = ConsoleOutput
       \/ (Output config = FileOutput /\ FilePath config ≠ ""
           /\ open_errno w (FilePath config) = None)
       \/ (Output config = BothOutput
           /\ (FilePath config = "" \/ open_errno w (FilePath config) = None))).
Proof.
  split.
  - intros (l & w' & H).
    New_branches config w; try discriminate H; by_output; auto 6.
  - intros [Hc | [(Hf & Hp & Ho) | (Hb & Hp)]].
    + rewrite (New_console config w Hc). by eexists _, _.
    + rewrite (New_file config w Hf Hp Ho). by eexists _, _.
    + destruct (decide (FilePath config = "")) as [He|Hne].
      * rewrite (New_both_no_path config w Hb He). by eexists _, _.
      * destruct Hp as [He|Ho]; [done|].
        rewrite (New_both config w Hb Hne Ho). by eexists _, _.
Qed.

Lemma New_accepts_iff_witness :
  exists l w', New (mkConfig WarnLevel BothOutput "" "json") locked_world = Returned (l, None) w'.
Proof.
  apply (New_accepts_iff (mkConfig WarnLevel BothOutput "" "json") locked_world).
  right. right. split; [reflexivity|]. left. reflexivity.
Defined.

(** When output needs the file ("file", or "both" with a non-empty path)
    and os.OpenFile fails, New returns a nil logger and an error that
    wraps, twice, the [*PathError] of the failed open; it is an I/O error,
    not a configuration error. No [Logger] is allocated and no file is
    opened; the engine New had created stays behind, referenced by
    nothing New returns. *)
Theorem New_open_failure (config : Config) (w : World) (errno : N) :
  Output config = FileOutput \/ Output config = BothOutput ->
  FilePath config ≠ "" ->
  open_errno w (FilePath config) = Some errno ->
  exists err w',
    New config w = Returned (nil_ptr, Some err) w'
    /\ err = wrapError "failed to setup output: "
               (wrapError "failed to open log file: "
                  (PathError "open" (FilePath config) errno))
    /\ is_IOError err = true /\ is_ConfigurationError err = false
    /\ handles w' = handles w /\ files w' = files w
    /\ written w' = written w
    /\ exists e, engines w' = engines w ++ [e].
Proof.
  intros [Ho|Ho] Hp Hopen.
  - rewrite (New_file_denied config w errno Ho Hp Hopen).
    eexists _, _. split; [reflexivity|]. repeat (split; [done|]). by eexists.
  - rewrite (New_both_denied config w errno Ho Hp Hopen).
    eexists _, _. split; [reflexivity|]. repeat (split; [done|]). by eexists.
Qed.

Lemma New_open_failure_witness :
  exists err w',
    New (mkConfig InfoLevel FileOutput "/var/log/app.log" "json") locked_world
    = Returned (nil_ptr, Some err) w'
    /\ err = wrapError "failed to setup output: "
               (wrapError "failed to open log file: "
                  (PathError "open" "/var/log/app.log" 13))
    /\ is_IOError err = true /\ is_ConfigurationError err = false
    /\ handles w' = handles locked_world /\ files w' = files locked_world
    /\ written w' = written locked_world
    /\ exists e, engines w' = engines locked_world ++ [e].
Proof.
  apply (New_open_failure (mkConfig InfoLevel FileOutput "/var/log/app.log" "json")
           locked_world 13);
    [by left | discriminate | reflexivity].
Defined.

(** With output "file" and a path that opens, the engine writes to that
    file and to nothing else (no fan-out, no standard output). New opens
    the path once, for appending, creating it if needed, write-only and
    without truncating it, with mode 0640. *)
Theorem New_file_writer (config : Config) (w w' : World) (l : ptr) :
  Output config = FileOutput ->
  New config w = Returned (l, None) w' ->
  exists e,
    sink_of w' l = Some e
    /\ logrus.Out e = io.File (length (files w))
    /\ files w' = files w ++ [mkOpenedFile (FilePath config) 1089 416]
    /\ Z.land 1089 O_APPEND = O_APPEND /\ Z.land 1089 O_CREATE = O_CREATE
    /\ Z.land 1089 O_WRONLY = O_WRONLY /\ Z.land 1089 O_TRUNC = 0%Z
    /\ FilePath config ≠ "".
Proof.
  intros Ho H.
  New_branches config w; try discriminate H; by_output.
  inversion H; subst. eexists. split; [apply sink_of_with_logger|]. done.
Qed.

Lemma New_file_writer_witness :
  exists e,
    sink_of (with_logger empty_world
               (logrus.mkLogger (io.File 0) logrus.JSONFormatter InfoLevel)
               [mkOpenedFile "/tmp/test.log" 1089 416])
            (addr 0) = Some e
    /\ logrus.Out e = io.File 0
    /\ [mkOpenedFile "/tmp/test.log" 1089 416] = [] ++ [mkOpenedFile "/tmp/test.log" 1089 416]
    /\ Z.land 1089 O_APPEND = O_APPEND /\ Z.land 1089 O_CREATE = O_CREATE
    /\ Z.land 1089 O_WRONLY = O_WRONLY /\ Z.land 1089 O_TRUNC = 0%Z
    /\ "/tmp/test.log" ≠ "".
Proof.
  apply (New_file_writer (mkConfig InfoLevel FileOutput "/tmp/test.log" "text") empty_world);
    reflexivity.
Defined.

(** With output "console" the file path is not looked at: whatever it
    is, and whether or not it could be opened, New succeeds, opens no
    file and the engine writes to standard output alone. *)
Theorem New_console_ignores_path (config : Config) (w : World) :
  Output config = ConsoleOutput ->
  exists l w' e,
    New config w = Returned (l, None) w'
    /\ sink_of w' l = Some e
    /\ logrus.Out e = io.Stdout
    /\ files w' = files w.
Proof.
  intros Ho. rewrite (New_console config w Ho).
  eexists _, _, _. split; [reflexivity|]. split; [apply sink_of_with_logger|]. done.
Qed.

Lemma New_console_ignores_path_witness :
  exists l w' e,
    New (mkConfig InfoLevel ConsoleOutput "/root/denied.log" "json") locked_world
    = Returned (l, None) w'
    /\ sink_of w' l = Some e
    /\ logrus.Out e = io.Stdout
    /\ files w' = files locked_world.
Proof.
  apply (New_console_ignores_path
           (mkConfig InfoLevel ConsoleOutput "/root/denied.log" "json") locked_world).
  reflexivity.
Defined.

(** New reads the level, the output and the file path of its
    configuration and nothing else: two configurations that agree on
    these three are built alike, whatever their formats. *)
Theorem New_reads_three_fields (c1 c2 : Config) (w : World) :
  Level c1 = Level c2 -> Output c1 = Output c2 -> FilePath c1 = FilePath c2 ->
  New c1 w = New c2 w.
Proof.
  destruct c1 as [lv1 o1 p1 f1], c2 as [lv2 o2 p2 f2]. simpl.
  intros -> -> ->. reflexivity.
Qed.

Lemma New_reads_three_fields_witness :
  New (mkConfig DebugLevel ConsoleOutput "" "json") empty_world
  = New (mkConfig DebugLevel ConsoleOutput "" "text") empty_world.
Proof.
  apply (New_reads_three_fields (mkConfig DebugLevel ConsoleOutput "" "json")
           (mkConfig DebugLevel ConsoleOutput "" "text") empty_world); reflexivity.
Defined.

(** ** Further properties of the handle *)

Lemma SetLevel_live w l self a e X :
  handle_of w l = Some self -> logger self = addr a -> engines w !! a = Some e ->
  SetLevel l X w
  = Returned tt
      (set_engines (fun h => <[a := logrus.mkLogger (logrus.Out e) (logrus.Fmt e) X]> h) w).
Proof.
  intros Hself Hlg Ha. unfold SetLevel, logrus_SetLevel; unfold_M.
  rewrite (load_Logger_live _ _ _ Hself), Hlg, (load_engine_live _ _ _ Ha).
  apply (store_engine_live _ _ e _ Ha).
Qed.

(** SetLevel on a live logger changes the level of its engine and
    nothing else: the engine keeps its writer and its formatter, the
    other engines, all [Logger]s, the files and the written lines are as
    before. *)
Theorem SetLevel_changes_only_level
    (w : World) (l : ptr) (self : Logger) (a : nat) (e : logrus.Logger) (X : logrus.Level) :
  handle_of w l = Some self -> logger self = addr a -> engines w !! a = Some e ->
  exists w',
    SetLevel l X w = Returned tt w'
    /\ engines w' !! a = Some (logrus.mkLogger (logrus.Out e) (logrus.Fmt e) X)
    /\ (forall b, b ≠ a -> engines w' !! b = engines w !! b)
    /\ handles w' = handles w /\ files w' = files w /\ written w' = written w.
Proof.
  intros Hself Hlg Ha. eexists. split; [by apply (SetLevel_live w l self a e)|].
  simpl. split; [apply list_lookup_insert_eq; by eapply lookup_lt_Some|].
  split; [|done]. intros b Hb. by apply list_lookup_insert_ne.
Qed.

Lemma SetLevel_changes_only_level_witness :
  exists w',
    SetLevel (addr 0) ErrorLevel
      (with_logger empty_world
         (logrus.mkLogger io.Stdout (logrus.TextFormatter true) DebugLevel) [])
    = Returned tt w'
    /\ engines w' !! 0 = Some (logrus.mkLogger io.Stdout (logrus.TextFormatter true) ErrorLevel)
    /\ (forall b, b ≠ 0 ->
        engines w' !! b
        = engines (with_logger empty_world
                     (logrus.mkLogger io.Stdout (logrus.TextFormatter true) DebugLevel) [])
          !! b)
    /\ handles w' = [mkLogger (addr 0) ""] /\ files w' = [] /\ written w' = [].
Proof.
  apply (SetLevel_changes_only_level
           (with_logger empty_world
              (logrus.mkLogger io.Stdout (logrus.TextFormatter true) DebugLevel) [])
           (addr 0) (mkLogger (addr 0) "") 0
           (logrus.mkLogger io.Stdout (logrus.TextFormatter true) DebugLevel) ErrorLevel);
    reflexivity.
Defined.

(** Each New makes an engine of its own: a logger that was live before
    the call keeps its engine through the call, and still has it, level
    included, after SetLevel on the logger New returned. Levels are
    shared within one root and never across roots. *)
Theorem New_engine_is_separate
    (config : Config) (w w' : World) (l p : ptr) (e : logrus.Logger) (X : logrus.Level) :
  New config w = Returned (l, None) w' ->
  sink_of w p = Some e ->
  sink_of w' p = Some e
  /\ exists w'',
      SetLevel l X w' = Returned tt w''
      /\ GetLevel l w'' = Returned X w''
      /\ sink_of w'' p = Some e
      /\ GetLevel p w'' = Returned (logrus.Lvl e) w''.
Proof.
  intros H Hp.
  destruct (sink_of_live _ _ _ Hp) as (self & a & Hself & Hlg & Ha).
  pose proof (lookup_lt_Some _ _ _ Ha) as Hlt.
  destruct (New_accepted config w w' l H) as (e' & He' & Hl & _).
  destruct (sink_of_live _ _ _ He') as (self' & a' & Hself' & Hlg' & Ha').
  assert (self' = mkLogger (addr (length (engines w))) "") as -> by congruence.
  simpl in Hlg'. injection Hlg' as <-.
  assert (handle_of w' p = Some self /\ engines w' !! a = Some e) as [Hself1 Ha1].
  { New_branches config w; try discriminate H; inversion H; subst;
      (split; [destruct p as [|q]; [done|]; simpl in *; by apply lookup_app_l_Some
              | simpl; by apply lookup_app_l_Some]). }
  split; [by rewrite (sink_of_handle _ _ _ _ Hself1 Hlg)|].
  destruct (SetLevel_GetLevel_shared w' l l _ _ e' X Hl Hl eq_refl He')
    as (w'' & Hset & Hget & _).
  exists w''. split; [done|]. split; [done|].
  assert (sink_of w'' p = Some e) as Hp''.
  { unfold SetLevel, logrus_SetLevel in Hset; unfold_M.
    rewrite (load_Logger_live _ _ _ Hl) in Hset. cbn [logger] in Hset.
    rewrite (load_engine_live _ _ _ Ha'), (store_engine_live _ _ e' _ Ha') in Hset.
    injection Hset as <-.
    rewrite (sink_of_handle _ p self a); [|by destruct p|done].
    simpl. rewrite list_lookup_insert_ne by lia. done. }
  split; [done|]. by apply GetLevel_live.
Qed.

Lemma New_engine_is_separate_witness :
  exists l w',
    New (mkConfig InfoLevel ConsoleOutput "" "text")
      (with_logger empty_world
         (logrus.mkLogger io.Stdout (logrus.TextFormatter true) DebugLevel) [])
    = Returned (l, None) w'
    /\ sink_of w' (addr 0)
       = Some (logrus.mkLogger io.Stdout (logrus.TextFormatter true) DebugLevel)
    /\ exists w'',
        SetLevel l ErrorLevel w' = Returned tt w''
        /\ GetLevel l w'' = Returned ErrorLevel w''
        /\ sink_of w'' (addr 0)
           = Some (logrus.mkLogger io.Stdout (logrus.TextFormatter true) DebugLevel)
        /\ GetLevel (addr 0) w'' = Returned DebugLevel w''.
Proof.
  eexists _, _. split; [reflexivity|].
  apply (New_engine_is_separate (mkConfig InfoLevel ConsoleOutput "" "text")
           (with_logger empty_world
              (logrus.mkLogger io.Stdout (logrus.TextFormatter true) DebugLevel) []));
    reflexivity.
Defined.

(** Every method dereferences its receiver first: called on a nil
    [*Logger] each of them panics with a nil dereference and leaves the
    world as it was. *)
Theorem nil_receiver_panics (w : World) :
  (forall name, WithService nil_ptr name w = Panicked nil_dereference w)
  /\ (forall group, WithGroup nil_ptr group w = Panicked nil_dereference w)
  /\ (forall level, SetLevel nil_ptr level w = Panicked nil_dereference w)
  /\ GetLevel nil_ptr w = Panicked nil_dereference w
  /\ (forall c stack, run_call c nil_ptr stack w = Panicked nil_dereference w)
  /\ (forall key v stack, WithField nil_ptr key v stack w = Panicked nil_dereference w)
  /\ (forall fields stack, WithFields nil_ptr fields stack w = Panicked nil_dereference w)
  /\ (forall err stack, WithError nil_ptr err stack w = Panicked nil_dereference w).
Proof.
  repeat split; try reflexivity.
  intros c stack. by destruct c.
Qed.

(** A [Logger] whose engine pointer is nil (the zero value of the
    struct) can still be renamed, WithService and WithGroup only copy the
    pointer; reading or setting the level, building an entry and logging
    all panic, and nothing is written. *)
Theorem zero_value_Logger (w : World) (l : ptr) (self : Logger) :
  handle_of w l = Some self -> logger self = nil_ptr ->
  (forall name, exists l' w',
        WithService l name w = Returned l' w'
        /\ handle_of w' l' = Some (mkLogger nil_ptr name))
  /\ (forall level, SetLevel l level w = Panicked nil_dereference w)
  /\ GetLevel l w = Panicked nil_dereference w
  /\ (forall c stack, run_call c l stack w = Panicked nil_dereference w)
  /\ (forall key v stack, WithField l key v stack w = Panicked nil_dereference w).
Proof.
  intros Hself Hnil. split; [|split; [|split; [|split]]].
  - intros name. destruct (WithService_spec w l self name Hself) as (l' & w' & Hs & Hl' & _).
    exists l', w'. by rewrite <- Hnil.
  - intros level. unfold SetLevel, logrus_SetLevel; unfold_M.
    by rewrite (load_Logger_live _ _ _ Hself), Hnil.
  - unfold GetLevel, logrus_GetLevel; unfold_M.
    by rewrite (load_Logger_live _ _ _ Hself), Hnil.
  - intros c stack. destruct c; unfold_calls; unfold_M;
      by rewrite (load_Logger_live _ _ _ Hself), Hnil.
  - intros key v stack. unfold WithField, withFields, logrus_WithFields; unfold_M.
    by rewrite (load_Logger_live _ _ _ Hself), Hnil.
Qed.

Lemma zero_value_Logger_witness :
  GetLevel (addr 0) (mkWorld [] [mkLogger nil_ptr ""] [] [] (fun _ => None))
  = Panicked nil_dereference (mkWorld [] [mkLogger nil_ptr ""] [] [] (fun _ => None)).
Proof.
  apply (zero_value_Logger (mkWorld [] [mkLogger nil_ptr ""] [] [] (fun _ => None))
           (addr 0) (mkLogger nil_ptr "") eq_refl eq_refl).
Defined.

(** ** Further properties of the log calls *)

(** A call on a logger that is not live (nil, or with a nil engine)
    panics before anything is written. *)
Lemma run_call_dead c l stack w :
  sink_of w l = None -> run_call c l stack w = Panicked nil_dereference w.
Proof.
  destruct l as [|p]; [by destruct c|]. simpl.
  destruct (handles w !! p) as [self|] eqn:Hself.
  - destruct (logger self) as [|a] eqn:Hlg.
    + intros _. destruct c; unfold_calls; unfold load_Logger, load_engine, deref; unfold_M;
        by rewrite Hself, Hlg.
    + intros Ha. destruct c; unfold_calls; unfold load_Logger, load_engine, deref; unfold_M;
        by rewrite Hself, Hlg, Ha.
  - intros _. destruct c; unfold_calls; unfold load_Logger, deref; unfold_M; by rewrite Hself.
Qed.

(** A log call, however it ends, changes nothing but the written lines,
    and adds at most one line to them: no engine is reconfigured, no
    [Logger] is created or changed, no file is opened. *)
Theorem log_call_only_writes (c : LogCall) (l : ptr) (stack : list Frame) (w : World) :
  let w' := world_of (run_call c l stack w) in
  engines w' = engines w /\ handles w' = handles w /\ files w' = files w
  /\ written w' = written w ++ emitted w (run_call c l stack w)
  /\ length (emitted w (run_call c l stack w)) <= 1.
Proof.
  cbv zeta. destruct (sink_of w l) as [eng|] eqn:Heng.
  - destruct (sink_of_live _ _ _ Heng) as (self & a & Hself & _).
    rewrite (run_call_emitted w l self eng c stack Hself Heng).
    rewrite (run_call_live w l self eng c stack Hself Heng). cbv zeta.
    destruct (N.leb _ (logrus.Lvl eng)); repeat case_match; simpl;
      rewrite ?app_nil_r; repeat split; lia.
  - unfold emitted. rewrite (run_call_dead c l stack w Heng). simpl.
    rewrite drop_all, app_nil_r. repeat split; simpl; lia.
Qed.

(** The line of a log call on a live logger. A call whose level is at
    or below the engine's level emits exactly one line: at the level of
    the method, with the arguments as given, formatted and written as
    the engine is configured at that moment. Its fields are "service",
    "file" (basename and line of the application frame that made the
    call), "func" when the runtime knows that frame's function, and no
    other; the frames further up play no part. A call above the engine's
    level emits nothing. *)
Theorem log_call_line
    (w : World) (l : ptr) (self : Logger) (eng : logrus.Logger)
    (c : LogCall) (site : Frame) (rest : list Frame) :
  handle_of w l = Some self -> sink_of w l = Some eng ->
  exists data,
    emitted w (run_call c l (site :: rest) w)
    = (if (level_of c <=? logrus.Lvl eng)%N then
         [logrus.mkLine (level_of c) (message_of c) data (logrus.Fmt eng) (logrus.Out eng)]
       else [])
    /\ data !! "service" = Some (VString (serviceName self))
    /\ data !! "file"
       = Some (VString (filepath_Base (frame_file site) +:+ ":" +:+ pretty (frame_line site)))
    /\ data !! "func" = VString <$> frame_func site
    /\ forall k, k ≠ "service" -> k ≠ "file" -> k ≠ "func" -> data !! k = None.
Proof.
  intros Hself Heng. eexists.
  split; [apply (run_call_emitted w l self eng c _ Hself Heng)|].
  split; [apply base_fields_service|].
  split; [by rewrite base_fields_lookup|].
  split; [by rewrite base_fields_lookup|].
  intros k H1 H2 H3. rewrite base_fields_lookup. by repeat case_decide.
Qed.

Lemma log_call_line_witness :
  exists data,
    emitted (with_logger empty_world
               (logrus.mkLogger io.Stdout (logrus.TextFormatter true) InfoLevel) [])
      (run_call (CallWarnf "disk %d full" [VInt 93]) (addr 0) app_stack
         (with_logger empty_world
            (logrus.mkLogger io.Stdout (logrus.TextFormatter true) InfoLevel) []))
    = [logrus.mkLine WarnLevel (logrus.Sprintf "disk %d full" [VInt 93]) data
         (logrus.TextFormatter true) io.Stdout]
    /\ data !! "service" = Some (VString "")
    /\ data !! "file" = Some (VString "main.go:21")
    /\ data !! "func" = Some (VString "main.main")
    /\ forall k, k ≠ "service" -> k ≠ "file" -> k ≠ "func" -> data !! k = None.
Proof.
  apply (log_call_line
           (with_logger empty_world
              (logrus.mkLogger io.Stdout (logrus.TextFormatter true) InfoLevel) [])
           (addr 0) (mkLogger (addr 0) "")
           (logrus.mkLogger io.Stdout (logrus.TextFormatter true) InfoLevel)
           (CallWarnf "disk %d full" [VInt 93])
           (mkFrame (Some "main.main") "/home/dev/app/cmd/main.go" 21)
           [mkFrame (Some "runtime.main") "/usr/local/go/src/runtime/proc.go" 272]);
    reflexivity.
Defined.

(** The level is a switch for every logger on the engine: after
    SetLevel(X) through one logger, a call through any logger of the same
    engine emits its line exactly when the call's level is at or below
    X. *)
Theorem SetLevel_gates_shared_loggers
    (w : World) (l1 l2 : ptr) (h1 h2 : Logger) (e : logrus.Logger)
    (X : logrus.Level) (c : LogCall) (stack : list Frame) :
  handle_of w l1 = Some h1 -> handle_of w l2 = Some h2 ->
  logger h1 = logger h2 -> sink_of w l1 = Some e ->
  exists w',
    SetLevel l1 X w = Returned tt w'
    /\ length (emitted w' (run_call c l2 stack w'))
       = if (level_of c <=? X)%N then 1 else 0.
Proof.
  intros H1 H2 Hsame He.
  destruct (sink_of_live _ _ _ He) as (self & a & Hself & Hlg & Ha).
  assert (self = h1) as -> by congruence.
  eexists. split; [by apply (SetLevel_live w l1 h1 a e)|].
  set (w' := set_engines _ w).
  assert (handle_of w' l2 = Some h2) as H2' by (by destruct l2).
  assert (sink_of w' l2 = Some (logrus.mkLogger (logrus.Out e) (logrus.Fmt e) X)) as He2.
  { rewrite (sink_of_handle _ _ _ a H2'); [|congruence].
    simpl. apply list_lookup_insert_eq. by eapply lookup_lt_Some. }
  rewrite (run_call_emitted w' l2 h2 _ c stack H2' He2). simpl.
  by destruct (N.leb _ X).
Qed.

Lemma SetLevel_gates_shared_loggers_witness :
  exists w',
    SetLevel (addr 0) WarnLevel
      (mkWorld [logrus.mkLogger io.Stdout (logrus.TextFormatter true) DebugLevel]
               [mkLogger (addr 0) ""; mkLogger (addr 0) "svc"] [] [] (fun _ => None))
    = Returned tt w'
    /\ length (emitted w' (run_call (CallInfo [VString "quiet now"]) (addr 1) app_stack w'))
       = 0.
Proof.
  apply (SetLevel_gates_shared_loggers
           (mkWorld [logrus.mkLogger io.Stdout (logrus.TextFormatter true) DebugLevel]
                    [mkLogger (addr 0) ""; mkLogger (addr 0) "svc"] [] [] (fun _ => None))
           (addr 0) (addr 1) (mkLogger (addr 0) "") (mkLogger (addr 0) "svc")
           (logrus.mkLogger io.Stdout (logrus.TextFormatter true) DebugLevel)
           WarnLevel (CallInfo [VString "quiet now"]) app_stack);
    reflexivity.
Defined.

(** Fatal and Fatalf on a live logger always end the process with exit
    status 1, after the line if the fatal level is enabled. Panic and
    Panicf always write their line, no level disables them, and then
    panic with the entry, which carries the logger's service name. *)
Theorem Fatal_exits_and_Panic_panics
    (w : World) (l : ptr) (self : Logger) (eng : logrus.Logger)
    (c : LogCall) (stack : list Frame) :
  handle_of w l = Some self -> sink_of w l = Some eng ->
  (level_of c = FatalLevel ->
   exists w', run_call c l stack w = Exited 1 w'
              /\ length (emitted w (run_call c l stack w))
                 = if (FatalLevel <=? logrus.Lvl eng)%N then 1 else 0)
  /\ (level_of c = PanicLevel ->
      exists e w', run_call c l stack w = Panicked (EntryPanic e) w'
                   /\ logrus.Data e !! "service" = Some (VString (serviceName self))
                   /\ length (emitted w (run_call c l stack w)) = 1)
  /\ (level_of c ≠ FatalLevel -> level_of c ≠ PanicLevel ->
      exists w', run_call c l stack w = Returned tt w').
Proof.
  intros Hself Heng.
  pose proof (run_call_emitted w l self eng c stack Hself Heng) as Hem.
  pose proof (run_call_live w l self eng c stack Hself Heng) as Hrun. cbv zeta in Hrun.
  split; [|split].
  - intros Hlv. rewrite Hem, Hrun, Hlv.
    destruct (N.leb FatalLevel (logrus.Lvl eng)); by eexists.
  - intros Hlv. rewrite Hem, Hrun, Hlv.
    assert ((PanicLevel <=? logrus.Lvl eng)%N = true) as -> by (apply N.leb_le, N.le_0_l).
    eexists _, _. split; [reflexivity|]. split; [apply base_fields_service|done].
  - intros Hf Hp. rewrite Hrun.
    destruct c; try done; cbn [level_of];
      destruct (N.leb _ (logrus.Lvl eng)); by eexists.
Qed.


Lemma Fatal_exits_and_Panic_panics_witness :
  exists e w',
    run_call (CallPanic [VString "boom"]) (addr 0) app_stack
      (with_logger empty_world
         (logrus.mkLogger io.Stdout (logrus.TextFormatter true) PanicLevel) [])
    = Panicked (EntryPanic e) w'
    /\ logrus.Data e !! "service" = Some (VString "")
    /\ length (emitted
                 (with_logger empty_world
                    (logrus.mkLogger io.Stdout (logrus.TextFormatter true) PanicLevel) [])
                 (run_call (CallPanic [VString "boom"]) (addr 0) app_stack
                    (with_logger empty_world
                       (logrus.mkLogger io.Stdout (logrus.TextFormatter true) PanicLevel)
                       []))) = 1.
Proof.
  destruct (Fatal_exits_and_Panic_panics
              (with_logger empty_world
                 (logrus.mkLogger io.Stdout (logrus.TextFormatter true) PanicLevel) [])
              (addr 0) (mkLogger (addr 0) "")
              (logrus.mkLogger io.Stdout (logrus.TextFormatter true) PanicLevel)
              (CallPanic [VString "boom"]) app_stack eq_refl eq_refl) as (_ & Hpanic & _).
  apply Hpanic. reflexivity.
Defined.

(** ** The builders *)

(** WithFields on a live logger writes nothing and returns an entry of
    the logger's engine holding the caller's fields over the base
    fields: a key the caller gives has the caller's value, also "service",
    "func" and "file"; any other key has its base value. *)
Theorem WithFields_merges_over_base
    (w : World) (l : ptr) (self : Logger) (eng : logrus.Logger)
    (fields : gmap string value) (site : Frame) (rest : list Frame) :
  handle_of w l = Some self -> sink_of w l = Some eng ->
  exists e,
    WithFields l fields (site :: rest) w = Returned e w
    /\ logrus.entry_Logger e = logger self
    /\ (forall k v, fields !! k = Some v -> logrus.Data e !! k = Some v)
    /\ (forall k, fields !! k = None ->
        logrus.Data e !! k
        = if decide (k = "file") then
            Some (VString (filepath_Base (frame_file site) +:+ ":"
                           +:+ pretty (frame_line site)))
          else if decide (k = "func") then VString <$> frame_func site
          else if decide (k = "service") then Some (VString (serviceName self))
          else None).
Proof.
  intros Hself Heng. unfold WithFields; unfold_M.
  rewrite (withFields_live w l self eng _ Hself Heng).
  eexists. split; [reflexivity|]. split; [reflexivity|].
  unfold Entry_WithFields; cbn [logrus.Data]. split.
  - intros k v Hk. by apply lookup_union_Some_l.
  - intros k Hk. rewrite lookup_union_r by done. apply base_fields_lookup.
Qed.

Lemma WithFields_merges_over_base_witness :
  exists e,
    WithFields (addr 0) {[ "user_id" := VString "12345" ]} app_stack
      (with_logger empty_world
         (logrus.mkLogger io.Stdout (logrus.TextFormatter true) InfoLevel) [])
    = Returned e
        (with_logger empty_world
           (logrus.mkLogger io.Stdout (logrus.TextFormatter true) InfoLevel) [])
    /\ logrus.entry_Logger e = addr 0
    /\ logrus.Data e !! "user_id" = Some (VString "12345")
    /\ logrus.Data e !! "service" = Some (VString "").
Proof.
  destruct (WithFields_merges_over_base
              (with_logger empty_world
                 (logrus.mkLogger io.Stdout (logrus.TextFormatter true) InfoLevel) [])
              (addr 0) (mkLogger (addr 0) "")
              (logrus.mkLogger io.Stdout (logrus.TextFormatter true) InfoLevel)
              {[ "user_id" := VString "12345" ]}
              (mkFrame (Some "main.main") "/home/dev/app/cmd/main.go" 21)
              [mkFrame (Some "runtime.main") "/usr/local/go/src/runtime/proc.go" 272]
              eq_refl eq_refl) as (e & He & Hlg & Hgiven & Hbase).
  exists e. split; [exact He|]. split; [exact Hlg|]. split.
  - apply Hgiven. reflexivity.
  - rewrite (Hbase "service"); reflexivity.
Defined.

(** WithError on a live logger writes nothing and returns an entry
    whose field "error" is the error given, the base fields being kept
    beside it. *)
Theorem WithError_adds_error_field
    (w : World) (l : ptr) (self : Logger) (eng : logrus.Logger)
    (err : error) (site : Frame) (rest : list Frame) :
  handle_of w l = Some self -> sink_of w l = Some eng ->
  exists e,
    WithError l err (site :: rest) w = Returned e w
    /\ logrus.Data e !! "error" = Some (VError err)
    /\ logrus.Data e !! "service" = Some (VString (serviceName self))
    /\ logrus.Data e !! "file"
       = Some (VString (filepath_Base (frame_file site) +:+ ":" +:+ pretty (frame_line site)))
    /\ logrus.Data e !! "func" = VString <$> frame_func site.
Proof.
  intros Hself Heng. unfold WithError; unfold_M.
  rewrite (withFields_live w l self eng _ Hself Heng).
  eexists. split; [reflexivity|].
  unfold Entry_WithError, Entry_WithField, Entry_WithFields; cbn [logrus.Data].
  split; [apply lookup_union_Some_l; by rewrite lookup_singleton_eq|].
  repeat split; rewrite lookup_union_r by (by rewrite lookup_singleton_ne);
    by rewrite base_fields_lookup.
Qed.

Lemma WithError_adds_error_field_witness :
  exists e,
    WithError (addr 0) (errorString "connection refused") app_stack
      (with_logger empty_world
         (logrus.mkLogger io.Stdout (logrus.TextFormatter true) InfoLevel) [])
    = Returned e
        (with_logger empty_world
           (logrus.mkLogger io.Stdout (logrus.TextFormatter true) InfoLevel) [])
    /\ logrus.Data e !! "error" = Some (VError (errorString "connection refused"))
    /\ logrus.Data e !! "service" = Some (VString "")
    /\ logrus.Data e !! "file" = Some (VString "main.go:21")
    /\ logrus.Data e !! "func" = Some (VString "main.main").
Proof.
  apply (WithError_adds_error_field
           (with_logger empty_world
              (logrus.mkLogger io.Stdout (logrus.TextFormatter true) InfoLevel) [])
           (addr 0) (mkLogger (addr 0) "")
           (logrus.mkLogger io.Stdout (logrus.TextFormatter true) InfoLevel)
           (errorString "connection refused")
           (mkFrame (Some "main.main") "/home/dev/app/cmd/main.go" 21)
           [mkFrame (Some "runtime.main") "/usr/local/go/src/runtime/proc.go" 272]);
    reflexivity.
Defined.

(** An entry made by WithField carries the place where WithField was
    called: logging through the entry later, from wherever, writes a line
    (when the level is enabled) whose fields are the entry's, with the
    "file" of the WithField call and the caller's key. *)
Theorem WithField_entry_keeps_its_site
    (w : World) (l : ptr) (self : Logger) (eng : logrus.Logger)
    (key : string) (v : value) (site : Frame) (rest : list Frame) (args : list value) :
  handle_of w l = Some self -> sink_of w l = Some eng ->
  (ErrorLevel <=? logrus.Lvl eng)%N = true ->
  key ≠ "file" ->
  exists e ln,
    WithField l key v (site :: rest) w = Returned e w
    /\ emitted w (Entry_Error e args w) = [ln]
    /\ logrus.line_level ln = ErrorLevel
    /\ logrus.line_msg ln = logrus.Sprint args
    /\ logrus.line_data ln !! key = Some v
    /\ logrus.line_data ln !! "file"
       = Some (VString (filepath_Base (frame_file site) +:+ ":" +:+ pretty (frame_line site))).
Proof.
  intros Hself Heng Hen Hkey.
  destruct (sink_of_live _ _ _ Heng) as (self' & a & Hself' & Hlg & Ha).
  assert (self' = self) as -> by congruence.
  unfold WithField; unfold_M. rewrite (withFields_live w l self eng _ Hself Heng).
  eexists _, _. split; [reflexivity|].
  unfold Entry_Error, Entry_WithField, Entry_WithFields, emitted.
  cbn [logrus.entry_Logger logrus.Data]. rewrite Hlg.
  rewrite (Entry_Log_live w a eng _ _ _ Ha).
  change logrus.ErrorLevel with ErrorLevel. rewrite Hen.
  change (ErrorLevel <=? logrus.PanicLevel)%N with false.
  cbv zeta. cbn [world_of]. unfold set_written. cbn [written].
  rewrite drop_app_length. split; [reflexivity|]. cbn [logrus.line_level
    logrus.line_msg logrus.line_data].
  split; [done|]. split; [done|].
  split; [apply lookup_union_Some_l; by rewrite lookup_singleton_eq|].
  rewrite lookup_union_r by (by rewrite lookup_singleton_ne).
  by rewrite base_fields_lookup.
Qed.

Lemma WithField_entry_keeps_its_site_witness :
  exists e ln,
    WithField (addr 0) "port" (VInt 8080) app_stack
      (with_logger empty_world
         (logrus.mkLogger io.Stdout (logrus.TextFormatter true) InfoLevel) [])
    = Returned e
        (with_logger empty_world
           (logrus.mkLogger io.Stdout (logrus.TextFormatter true) InfoLevel) [])
    /\ emitted (with_logger empty_world
                  (logrus.mkLogger io.Stdout (logrus.TextFormatter true) InfoLevel) [])
         (Entry_Error e [VString "listen failed"]
            (with_logger empty_world
               (logrus.mkLogger io.Stdout (logrus.TextFormatter true) InfoLevel) []))
       = [ln]
    /\ logrus.line_level ln = ErrorLevel
    /\ logrus.line_msg ln = logrus.Sprint [VString "listen failed"]
    /\ logrus.line_data ln !! "port" = Some (VInt 8080)
    /\ logrus.line_data ln !! "file" = Some (VString "main.go:21").
Proof.
  apply (WithField_entry_keeps_its_site
           (with_logger empty_world
              (logrus.mkLogger io.Stdout (logrus.TextFormatter true) InfoLevel) [])
           (addr 0) (mkLogger (addr 0) "")
           (logrus.mkLogger io.Stdout (logrus.TextFormatter true) InfoLevel)
           "port" (VInt 8080)
           (mkFrame (Some "main.main") "/home/dev/app/cmd/main.go" 21)
           [mkFrame (Some "runtime.main") "/usr/local/go/src/runtime/proc.go" 272]
           [VString "listen failed"]);
    [reflexivity | reflexivity | reflexivity | discriminate].
Defined.

(** ** Chains of derived loggers *)

Lemma only_allocates_refl w : only_allocates w w.
Proof. by repeat split. Qed.

Lemma only_allocates_trans w1 w2 w3 :
  only_allocates w1 w2 -> only_allocates w2 w3 -> only_allocates w1 w3.
Proof.
  intros (He1 & Hf1 & Hw1 & Ho1 & Hk1) (He2 & Hf2 & Hw2 & Ho2 & Hk2).
  repeat split; try congruence. intros p self H. by apply Hk2, Hk1.
Qed.

Lemma derive_step_spec w l self d :
  handle_of w l = Some self ->
  exists l' w',
    derive_step l d w = Returned l' w'
    /\ handle_of w' l'
       = Some (mkLogger (logger self)
                 (match d with
                  | ByService name => name
                  | ByGroup group =>
                      if decide (serviceName self ≠ "")
                      then serviceName self +:+ "." +:+ group else group
                  end))
    /\ only_allocates w w'
    /\ length (handles w') = S (length (handles w)).
Proof.
  intros H. destruct d as [name|group]; simpl;
    [unfold WithService | unfold WithGroup]; unfold_M;
    rewrite (load_Logger_live _ _ _ H);
    unfold alloc_Logger, set_handles;
    (eexists _, _; split; [reflexivity|]; simpl;
     split; [by rewrite list_lookup_middle|];
     split; [|rewrite length_app; simpl; lia];
     repeat split; try done;
     intros [|q] s0; [done|]; simpl; intros Hq; by apply lookup_app_l_Some).
Qed.

Lemma derive_live w l self ds :
  handle_of w l = Some self ->
  exists l' w' self',
    derive l ds w = Returned l' w'
    /\ handle_of w' l' = Some self' /\ logger self' = logger self
    /\ only_allocates w w'
    /\ length (handles w') = length (handles w) + length ds.
Proof.
  revert w l self. induction ds as [|d ds IH]; intros w l self H.
  - exists l, w, self. split; [done|]. split; [done|]. split; [done|].
    split; [apply only_allocates_refl|]. simpl. lia.
  - destruct (derive_step_spec w l self d H) as (l1 & w1 & Hstep & Hl1 & Hpure1 & Hlen1).
    destruct (IH w1 l1 _ Hl1) as (l' & w' & self' & Hrest & Hl' & Hlg & Hpure & Hlen).
    exists l', w', self'. simpl. unfold_M. rewrite Hstep.
    split; [done|]. split; [done|]. split; [done|].
    split; [by eapply only_allocates_trans|]. lia.
Qed.

Lemma derive_app l ds1 ds2 w :
  derive l (ds1 ++ ds2) w = (l' ← derive l ds1; derive l' ds2) w.
Proof.
  revert l w. induction ds1 as [|d ds1 IH]; intros l w; [done|].
  simpl. unfold_M. destruct (derive_step l d w) as [l1 w1| |]; [|done..].
  apply IH.
Qed.

Lemma dotted_nonempty name groups : name ≠ "" -> dotted name groups ≠ "".
Proof.
  revert name. induction groups as [|g gs IH]; intros name Hne; [done|].
  simpl. apply IH. by destruct name.
Qed.

Lemma derive_groups w l self gs :
  handle_of w l = Some self -> serviceName self ≠ "" ->
  exists l' w',
    derive l (ByGroup <$> gs) w = Returned l' w'
    /\ handle_of w' l' = Some (mkLogger (logger self) (dotted (serviceName self) gs)).
Proof.
  revert w l self. induction gs as [|g gs IH]; intros w l self H Hne.
  - exists l, w. split; [done|]. by destruct self.
  - destruct (derive_step_spec w l self (ByGroup g) H) as (l1 & w1 & Hstep & Hl1 & _).
    rewrite decide_True in Hl1 by done.
    destruct (IH w1 l1 _ Hl1) as (l' & w' & Hrest & Hl'); [by destruct (serviceName self)|].
    exists l', w'. simpl. unfold_M. simpl in Hstep. by rewrite Hstep.
Qed.

(** A logger derived through any chain of WithService and WithGroup
    calls is on the engine of the logger the chain started from; the
    chain allocates one [Logger] per step and changes nothing that
    existed, the starting logger included. *)
Theorem derive_keeps_engine (w : World) (l : ptr) (self : Logger) (ds : list Derivation) :
  handle_of w l = Some self ->
  exists l' w' self',
    derive l ds w = Returned l' w'
    /\ handle_of w' l' = Some self' /\ logger self' = logger self
    /\ sink_of w' l' = sink_of w l
    /\ handle_of w' l = Some self
    /\ only_allocates w w'
    /\ length (handles w') = length (handles w) + length ds.
Proof.
  intros H.
  destruct (derive_live w l self ds H) as (l' & w' & self' & Hd & Hl' & Hlg & Hpure & Hlen).
  exists l', w', self'. split; [done|]. split; [done|]. split; [done|].
  split; [|split; [by apply Hpure|done]].
  destruct (logger self) as [|a] eqn:Ha.
  - destruct l as [|p], l' as [|p']; simpl in *; try done.
    by rewrite H, Hl', Hlg, Ha.
  - rewrite (sink_of_handle w' l' self' a Hl' Hlg), (sink_of_handle w l self a H Ha).
    by destruct Hpure as [-> _].
Qed.

(** The name at the end of a chain is decided by its last WithService
    and the WithGroup calls after it: for a non-empty service name s the
    logger is named s.g1.g2... whatever came before. An empty group name
    is appended like any other, leaving a dot at the end. *)
Theorem derive_name
    (w : World) (l : ptr) (self : Logger)
    (before : list Derivation) (s : string) (groups : list string) :
  handle_of w l = Some self -> s ≠ "" ->
  exists l' w',
    derive l (before ++ ByService s :: (ByGroup <$> groups)) w = Returned l' w'
    /\ handle_of w' l' = Some (mkLogger (logger self) (dotted s groups)).
Proof.
  intros H Hs. rewrite derive_app. unfold_M.
  destruct (derive_live w l self before H) as (l1 & w1 & self1 & Hd & Hl1 & Hlg & _).
  rewrite Hd. cbn [derive]. unfold_M.
  destruct (derive_step_spec w1 l1 self1 (ByService s) Hl1) as (l2 & w2 & Hstep & Hl2 & _).
  rewrite Hstep.
  destruct (derive_groups w2 l2 _ groups Hl2 Hs) as (l' & w' & Hg & Hl').
  exists l', w'. split; [done|]. by rewrite Hl', Hlg.
Qed.

Lemma derive_keeps_engine_witness :
  exists l' w' self',
    derive (addr 0) [ByService "api"; ByGroup "db"; ByService "worker"]
      (with_logger empty_world
         (logrus.mkLogger io.Stdout (logrus.TextFormatter true) InfoLevel) [])
    = Returned l' w'
    /\ handle_of w' l' = Some self' /\ logger self' = addr 0
    /\ sink_of w' l'
       = sink_of (with_logger empty_world
                    (logrus.mkLogger io.Stdout (logrus.TextFormatter true) InfoLevel) [])
                 (addr 0)
    /\ handle_of w' (addr 0) = Some (mkLogger (addr 0) "")
    /\ only_allocates
         (with_logger empty_world
            (logrus.mkLogger io.Stdout (logrus.TextFormatter true) InfoLevel) []) w'
    /\ length (handles w') = 1 + 3.
Proof.
  apply (derive_keeps_engine
           (with_logger empty_world
              (logrus.mkLogger io.Stdout (logrus.TextFormatter true) InfoLevel) [])
           (addr 0) (mkLogger (addr 0) "")
           [ByService "api"; ByGroup "db"; ByService "worker"]).
  reflexivity.
Defined.

Lemma derive_name_witness :
  exists l' w',
    derive (addr 0)
      ([ByGroup "old"] ++ ByService "api" :: (ByGroup <$> ["db"; "pool"]))
      (with_logger empty_world
         (logrus.mkLogger io.Stdout (logrus.TextFormatter true) InfoLevel) [])
    = Returned l' w'
    /\ handle_of w' l' = Some (mkLogger (addr 0) "api.db.pool").
Proof.
  apply (derive_name
           (with_logger empty_world
              (logrus.mkLogger io.Stdout (logrus.TextFormatter true) InfoLevel) [])
           (addr 0) (mkLogger (addr 0) "") [ByGroup "old"] "api" ["db"; "pool"]);
    [reflexivity | discriminate].
Defined.

(** ** The example service *)

(** A call that does not end the process, on a live logger: it returns,
    having appended its line if the level is enabled. *)
Lemma run_call_returns w l self eng c stack :
  handle_of w l = Some self -> sink_of w l = Some eng -> ends_process c = false ->
  run_call c l stack w
  = Returned tt
      (set_written
         (fun ls =>
            ls ++ List.filter (fun ln => (logrus.line_level ln <=? logrus.Lvl eng)%N)
                    [logrus.mkLine (level_of c) (message_of c)
                       (base_fields (serviceName self)
                          (own_frame "withFields" :: own_frame (method_of c) :: stack))
                       (logrus.Fmt eng) (logrus.Out eng)]) w).
Proof.
  intros Hself Heng Hc. rewrite (run_call_live w l self eng c stack Hself Heng).
  cbv zeta. cbn [List.filter logrus.line_level].
  destruct c; try discriminate Hc; cbn [level_of];
    destruct (N.leb _ (logrus.Lvl eng)); cbn;
    try reflexivity; unfold set_written; by rewrite app_nil_r; destruct w.
Qed.

Lemma Run_eq src s stack w self eng :
  handle_of w (svc_logger s) = Some self -> sink_of w (svc_logger s) = Some eng ->
  let data (method : string) (line : Z) :=
    base_fields (serviceName self)
      (own_frame "withFields" :: own_frame method :: frame_in src "Run" line :: stack) in
  let mk lv (txt : string) d :=
    logrus.mkLine lv (logrus.Sprint [VString txt]) d (logrus.Fmt eng) (logrus.Out eng) in
  Run src s stack w
  = Returned tt
      (set_written
         (fun ls =>
            ls ++ List.filter (fun ln => (logrus.line_level ln <=? logrus.Lvl eng)%N)
                    [mk InfoLevel "Service started" (data "Info" 18%Z);
                     mk DebugLevel "Debug message from service" (data "Debug" 19%Z);
                     mk WarnLevel "Warning message from service" (data "Warn" 20%Z);
                     mk ErrorLevel "Error message from service" (data "Error" 21%Z);
                     mk ErrorLevel "Error message from service"
                        ({[ "error" := VError (errorString "test error") ]}
                           ∪ data "WithField" 23%Z)]) w).
Proof.
  intros Hself Heng. cbv zeta.
  destruct (sink_of_live _ _ _ Heng) as (self' & a & Hself' & Hlg & Ha).
  assert (self' = self) as -> by congruence.
  unfold Run; unfold_M.
  change (Info ?l ?args ?st) with (run_call (CallInfo args) l st).
  change (Debug ?l ?args ?st) with (run_call (CallDebug args) l st).
  change (Warn ?l ?args ?st) with (run_call (CallWarn args) l st).
  change (Error ?l ?args ?st) with (run_call (CallError args) l st).
  do 4 (erewrite run_call_returns; [|exact Hself|exact Heng|reflexivity]).
  unfold WithField; unfold_M.
  erewrite withFields_live; [|exact Hself|exact Heng].
  unfold Entry_Error, Entry_WithField, Entry_WithFields.
  cbn [logrus.entry_Logger logrus.Data]. rewrite Hlg.
  erewrite Entry_Log_live; [|exact Ha].
  change (logrus.ErrorLevel <=? logrus.PanicLevel)%N with false.
  cbn [level_of message_of method_of List.filter logrus.line_level].
  unfold set_written; cbn [engines handles files written open_errno].
  unfold InfoLevel, DebugLevel, WarnLevel, ErrorLevel.
  destruct (N.leb logrus.InfoLevel (logrus.Lvl eng)),
    (N.leb logrus.DebugLevel (logrus.Lvl eng)),
    (N.leb logrus.WarnLevel (logrus.Lvl eng)),
    (N.leb logrus.ErrorLevel (logrus.Lvl eng));
    cbv zeta; f_equal; f_equal; rewrite ?app_nil_r, <- ?app_assoc; reflexivity.
Qed.

(** Run on a service with a live logger returns normally, whatever the
    level. It logs its five messages in order (info, debug, warning,
    error, error), those whose level the engine enables and no others;
    every line has the logger's service name, the function Run and the
    file of Run with the line of its own statement (18, 19, 20, 21, 23),
    and goes through the engine's formatter and writer; the fifth line
    also has the field "error". Nothing else in the world changes. *)
Theorem Run_logs_its_script
    (src : SourceFile) (s : Service) (stack : list Frame) (w : World)
    (self : Logger) (eng : logrus.Logger) :
  handle_of w (svc_logger s) = Some self -> sink_of w (svc_logger s) = Some eng ->
  exists w' lns,
    Run src s stack w = Returned tt w'
    /\ written w'
       = written w
         ++ List.filter (fun ln => (logrus.line_level ln <=? logrus.Lvl eng)%N) lns
    /\ (fun ln => (logrus.line_level ln, logrus.line_msg ln)) <$> lns = Run_script
    /\ (fun ln => logrus.line_data ln !! "file") <$> lns
       = (fun n : Z => Some (VString (filepath_Base (sf_path src) +:+ ":" +:+ pretty n)))
           <$> [18; 19; 20; 21; 23]%Z
    /\ Forall (fun ln =>
                 logrus.line_data ln !! "service" = Some (VString (serviceName self))
                 /\ logrus.line_data ln !! "func" = VString <$> sf_func src "Run"
                 /\ logrus.line_fmt ln = logrus.Fmt eng
                 /\ logrus.line_out ln = logrus.Out eng) lns
    /\ (exists ln, lns !! 4 = Some ln
                   /\ logrus.line_data ln !! "error"
                      = Some (VError (errorString "test error")))
    /\ engines w' = engines w /\ handles w' = handles w /\ files w' = files w.
Proof.
  intros Hself Heng. eexists _, _.
  split; [apply (Run_eq src s stack w self eng Hself Heng)|].
  split; [reflexivity|]. split; [reflexivity|].
  split.
  { cbn [fmap list_fmap logrus.line_data].
    rewrite !lookup_union_r by done. by rewrite !base_fields_lookup. }
  split.
  { repeat apply Forall_cons_2; [..|apply Forall_nil_2];
      cbn [logrus.line_data logrus.line_fmt logrus.line_out];
      rewrite ?lookup_union_r by done; by rewrite !base_fields_lookup. }
  split; [|done].
  eexists. split; [reflexivity|]. cbn [logrus.line_data].
  by apply lookup_union_Some_l.
Qed.

Lemma Run_logs_its_script_witness :
  exists w' lns,
    Run (mkSourceFile "/src/example_svc/service.go" (fun fn => Some ("examplesvc." +:+ fn)))
      (NewService (addr 0)) app_stack
      (with_logger empty_world
         (logrus.mkLogger io.Stdout (logrus.TextFormatter true) InfoLevel) [])
    = Returned tt w'
    /\ written w' = [] ++ List.filter (fun ln => (logrus.line_level ln <=? InfoLevel)%N) lns
    /\ (fun ln => (logrus.line_level ln, logrus.line_msg ln)) <$> lns = Run_script
    /\ (fun ln => logrus.line_data ln !! "file") <$> lns
       = [Some (VString "service.go:18"); Some (VString "service.go:19");
          Some (VString "service.go:20"); Some (VString "service.go:21");
          Some (VString "service.go:23")].
Proof.
  destruct (Run_logs_its_script
              (mkSourceFile "/src/example_svc/service.go"
                 (fun fn => Some ("examplesvc." +:+ fn)))
              (NewService (addr 0)) app_stack
              (with_logger empty_world
                 (logrus.mkLogger io.Stdout (logrus.TextFormatter true) InfoLevel) [])
              (mkLogger (addr 0) "")
              (logrus.mkLogger io.Stdout (logrus.TextFormatter true) InfoLevel)
              eq_refl eq_refl)
    as (w' & lns & Hrun & Hw & Hscript & Hfile & _).
  exists w', lns. split; [exact Hrun|]. split; [exact Hw|]. split; [exact Hscript|].
  exact Hfile.
Defined.

(** ** The example program *)

Ltac run_main src_main src_svc :=
  destruct src_main as [path_main func_main], src_svc as [path_svc func_svc];
  unfold main, Run, Shutdown, frame_in; cbn [sf_func sf_path];
  generalize (func_main "main") (func_svc "Run") (func_svc "Shutdown");
  intros [fn_main|] [fn_Run|] [fn_Shutdown|]; vm_compute.

(** main on a file system that refuses the log file: the console logger
    and its two services have logged, the process exits with status 1 at
    the second New, and the deferred Shutdown calls never run, no
    "Service shutdown" line is written. *)
Theorem main_exits_without_shutdown
    (src_main src_svc : SourceFile) (stack : list Frame)
    (fs : string -> option N) (errno : N) :
  exists w',
    main src_main src_svc stack
      (fresh_process (with_path "logs/json_output.json" (Some errno) fs))
    = Exited 1 w'
    /\ digest <$> written w'
       = says io.Stdout "" "Logger created successfully"
         :: Run_digest io.Stdout "service1" ++ Run_digest io.Stdout "service2"
    /\ files w' = [].
Proof.
  run_main src_main src_svc; eexists; (split; [reflexivity|]); split; reflexivity.
Qed.

(** main on a file system where the log file opens: it returns; the
    console logger and its two services write to standard output, the
    second logger and its service to the file, and the three services
    are shut down in the reverse of the order they were started in, each
    through its own logger. *)
Theorem main_shuts_down_in_reverse
    (src_main src_svc : SourceFile) (stack : list Frame) (fs : string -> option N) :
  exists w',
    main src_main src_svc stack (fresh_process (with_path "logs/json_output.json" None fs))
    = Returned tt w'
    /\ digest <$> written w'
       = says io.Stdout "" "Logger created successfully"
         :: Run_digest io.Stdout "service1" ++ Run_digest io.Stdout "service2"
         ++ says (io.File 0) "" "Logger2 created successfully"
         :: Run_digest (io.File 0) "service3"
         ++ [says (io.File 0) "service3" "Service shutdown";
             says io.Stdout "service2" "Service shutdown";
             says io.Stdout "service1" "Service shutdown"]
    /\ of_name <$> files w' = ["logs/json_output.json"].
Proof.
  run_main src_main src_svc; eexists; (split; [reflexivity|]); split; reflexivity.
Qed.
